(** * Inference cost attribution engine: cost events, tiered pricing,
      the hash-chained ledger and the replay engine.

    Shallow embedding of
      src/models/cost_event.py, src/models/pricing.py,
      src/ledger/ledger.py and src/replay/replay_engine.py.

    Python [float] is IEEE binary64: it is embedded as Rocq's primitive
    [float], whose operations are the same binary64 operations with
    round-to-nearest-even.  Exceptions are embedded as a [result] type; the
    ledger, the one mutable object, is threaded through a small
    state-and-exception monad. *)

From Stdlib Require Import ZArith Floats List String Ascii Bool Lia.
From Stdlib Require Import DecimalString.
From stdpp Require Import base gmap strings.
Import ListNotations.

Set Warnings "-inexact-float,-register-all".
Local Open Scope string_scope.
Local Open Scope list_scope.

(* ===================================================================== *)
(** ** Python values shared by the modules *)
(* ===================================================================== *)

(** A [uuid.UUID] is its 128-bit integer; [==] on UUIDs compares it. *)
Definition UUID := Z.

(** A timezone-aware [datetime]: the instant in microseconds since the
    epoch (UTC) and the offset of its time zone.  [<] between aware
    datetimes compares the instants. *)
Record datetime := mkDatetime {
  instant_us : Z;
  utcoffset_us : Z
}.

Arguments mkDatetime (instant_us utcoffset_us)%_Z.

Definition datetime_lt (a b : datetime) : bool :=
  (instant_us a <? instant_us b)%Z.

(** The exceptions of the core.  In the source every one of them is a
    [ValueError]; the constructors are the kinds, told apart by message. *)
Inductive Error :=
  | ValidationError        (* "Total cost must equal unit cost multiplied by quantity" *)
  | OrderingViolation      (* "Events must be added in chronological order" *)
  | InvalidQuantity        (* "Quantity cannot be negative" *)
  | NoPricingTiers         (* "No pricing tiers defined" *)
  | UnsupportedQuantity    (* "No applicable pricing tier for quantity ..." *)
  | UnknownPricingVersion (pricing_version : string)
  | CostMismatch (event_id : UUID) (expected got : float).

Inductive result (A : Type) :=
  | Ok (a : A)
  | Raise (e : Error).
Arguments CostMismatch event_id%_Z (expected got)%_float.
Arguments Ok {A} a.
Arguments Raise {A} e.

Definition is_ok {A} (r : result A) : bool :=
  match r with Ok _ => true | Raise _ => false end.

(** Builtins [max(a, b)] and [min(a, b)]: the first argument is kept
    unless the second compares strictly greater (smaller). *)
Definition py_max (a b : float) : float := if (a <? b)%float then b else a.
Definition py_min (a b : float) : float := if (b <? a)%float then b else a.

(** Builtin [sum] over floats, accumulated left to right from 0 with the
    float addition (interpreters from 3.12 on compensate the rounding
    error of the partial sums; no statement below depends on the rounding
    of a sum of more than one term). *)
Definition py_sum (l : list float) : float :=
  fold_left PrimFloat.add l 0%float.

(** JSON-serialisable values, the image of [metadata] under
    [json.dumps(..., default=str)]: an object that the encoder does not
    know is replaced by its [str], hence a [JStr]. *)
Inductive json :=
  | JNull
  | JBool (b : bool)
  | JInt (z : Z)
  | JFloat (f : float)
  | JStr (s : string)
  | JList (l : list json)
  | JDict (items : list (string * json)).

(* ===================================================================== *)
(** ** src/models/cost_event.py *)
(* ===================================================================== *)

Module CostEvent.

Record t := mk {
  event_id : UUID;
  timestamp : datetime;
  execution_id : UUID;
  component : string;
  action : string;
  unit_cost : float;
  quantity : float;
  total_cost : float;
  currency : string;
  cost_source : string;
  pricing_version : string;
  base_unit : string;
  metadata : option (list (string * json))
}.

(** [__post_init__]: [if self.total_cost != self.unit_cost * self.quantity:
    raise ValueError(...)]. *)
Definition post_init (self : t) : result t :=
  if negb (total_cost self =? unit_cost self * quantity self)%float
  then Raise ValidationError
  else Ok self.

(** The dataclass constructor: the generated [__init__] stores the
    fields and calls [__post_init__]. *)
Definition new (event_id : UUID) (timestamp : datetime) (execution_id : UUID)
    (component action : string) (unit_cost quantity total_cost : float)
    (currency cost_source pricing_version base_unit : string)
    (metadata : option (list (string * json))) : result t :=
  post_init (mk event_id timestamp execution_id component action
                unit_cost quantity total_cost currency cost_source
                pricing_version base_unit metadata).

Arguments new event_id%_Z timestamp execution_id%_Z (component action)%_string
  (unit_cost quantity total_cost)%_float
  (currency cost_source pricing_version base_unit)%_string metadata.

End CostEvent.

(* ===================================================================== *)
(** ** src/models/pricing.py *)
(* ===================================================================== *)

Module Pricing.

Record PricingTier := mkTier {
  min_quantity : float;
  max_quantity : option float;   (* None means no upper bound *)
  unit_cost : float
}.

Record PricingModel := mkModel {
  id : UUID;
  version : string;
  component : string;
  pricing_type : string;
  base_unit : string;
  tiers : list PricingTier;
  fixed_fee : option float;
  metadata : option (list (string * string))
}.

(** [self.fixed_fee or 0.0]: [None] and a zero fee are falsy. *)
Definition fixed_fee_or_zero (self : PricingModel) : float :=
  match fixed_fee self with
  | None => 0%float
  | Some f => if (f =? 0)%float then 0%float else f
  end.

(** [sorted(self.tiers, key=lambda t: t.min_quantity)]: a stable sort
    that compares keys with [<] only.  On keys that [<] orders totally
    (no NaN) every stable sort returns this list. *)
Fixpoint insert_tier (t : PricingTier) (l : list PricingTier) : list PricingTier :=
  match l with
  | [] => [t]
  | u :: l' =>
      if (min_quantity u <? min_quantity t)%float
      then u :: insert_tier t l'
      else t :: l
  end.

Definition sorted (l : list PricingTier) : list PricingTier :=
  fold_right insert_tier [] l.

(** The three locals that the loop of [calculate_cost] updates. *)
Record walk := mkWalk {
  total_cost : float;
  remaining_quantity : float;
  processed_up_to : float
}.

(** One iteration of [for tier in sorted_tiers], after the two [break]
    tests. *)
Definition walk_tier (quantity : float) (tier : PricingTier) (st : walk) : walk :=
  let tier_start := py_max (min_quantity tier) (processed_up_to st) in
  let tier_end :=
    match max_quantity tier with
    | Some m => m
    | None => infinity
    end in
  let quantity_in_tier := (py_min quantity tier_end - tier_start)%float in
  if (0 <? quantity_in_tier)%float then
    {| total_cost := (total_cost st + quantity_in_tier * unit_cost tier)%float;
       remaining_quantity := (remaining_quantity st - quantity_in_tier)%float;
       processed_up_to := py_min quantity tier_end |}
  else st.

(** The loop with its two [break]s. *)
Fixpoint walk_tiers (quantity : float) (ts : list PricingTier) (st : walk) : walk :=
  match ts with
  | [] => st
  | tier :: rest =>
      if (remaining_quantity st <=? 0)%float then st
      else if (quantity <? min_quantity tier)%float then st
      else walk_tiers quantity rest (walk_tier quantity tier st)
  end.

Definition epsilon : float := 1e-9%float.

Definition calculate_cost (self : PricingModel) (quantity : float) : result float :=
  if (quantity <? 0)%float then Raise InvalidQuantity
  else
    let total := fixed_fee_or_zero self in
    match tiers self with
    | [] => Raise NoPricingTiers
    | _ :: _ =>
        let sorted_tiers := sorted (tiers self) in
        match sorted_tiers with
        | [] => Raise NoPricingTiers   (* not reached: sorting keeps the length *)
        | lowest :: _ =>
            if (quantity <? min_quantity lowest)%float then Raise UnsupportedQuantity
            else
              let st := walk_tiers quantity sorted_tiers
                          (mkWalk total quantity 0%float) in
              if (epsilon <? remaining_quantity st)%float
              then Raise UnsupportedQuantity
              else Ok (total_cost st)
        end
    end.

(** The model of the tests and of the specification:
    [0,1000) at 0.01 and [1000, unbounded) at 0.005, no fixed fee. *)
Definition two_tier_model : PricingModel :=
  mkModel 1%Z "v1.0.0" "tiered_model" "token" "token"
    [ mkTier 0%float (Some 1000%float) 0.01%float;
      mkTier 1000%float None 0.005%float ]
    None None.

(** One tier from 0, unbounded, at unit cost [c], no fixed fee. *)
Definition single_tier_model (c : float) : PricingModel :=
  mkModel 1%Z "v1.0.0" "simple_model" "token" "token"
    [ mkTier 0%float None c ] None None.

(** A model that declares no tier (the one of [test_no_pricing_tiers],
    with an optional fixed fee). *)
Definition no_tier_model (fee : option float) : PricingModel :=
  mkModel 1%Z "v1.0.0" "test_model" "token" "token" [] fee None.

End Pricing.

(* ===================================================================== *)
(** ** Library functions that the ledger calls *)
(* ===================================================================== *)

(** The functions of Python's library that [ledger.py] calls on scalar
    values.  They are not part of the repository; the ledger is
    parametrised by them. *)
Class PyRuntime := {
  (** [hashlib.sha256(s.encode()).hexdigest()] *)
  sha256_hexdigest : string -> string;
  (** [float.__repr__], as [json] prints a float *)
  float_repr : float -> string;
  (** [json.encoder.encode_basestring_ascii]: the quoted, escaped literal *)
  encode_basestring_ascii : string -> string;
  (** [str(uuid)] *)
  uuid_str : UUID -> string;
  (** [datetime.isoformat()] *)
  isoformat : datetime -> string
}.

(** [json.dumps(v, sort_keys=True, default=str)] with the default
    separators [", "] and [": "]. *)
Module Json.
Section Dumps.
Context `{PyRuntime}.

Definition int_repr (z : Z) : string := NilZero.string_of_int (Z.to_int z).

(** Stable insertion sort of rendered dictionary items by key. *)
Fixpoint insert_item (kv : string * string) (l : list (string * string))
    : list (string * string) :=
  match l with
  | [] => [kv]
  | kv' :: l' =>
      if String.ltb (fst kv') (fst kv)
      then kv' :: insert_item kv l'
      else kv :: l
  end.

Definition sort_items (l : list (string * string)) : list (string * string) :=
  fold_right insert_item [] l.

Definition render_item (kv : string * string) : string :=
  encode_basestring_ascii (fst kv) ++ ": " ++ snd kv.

Fixpoint dumps (v : json) : string :=
  match v with
  | JNull => "null"
  | JBool true => "true"
  | JBool false => "false"
  | JInt z => int_repr z
  | JFloat f => float_repr f
  | JStr s => encode_basestring_ascii s
  | JList l => "[" ++ String.concat ", " (map dumps l) ++ "]"
  | JDict items =>
      "{" ++ String.concat ", "
               (map render_item
                  (sort_items (map (fun kv => (fst kv, dumps (snd kv))) items)))
          ++ "}"
  end.

End Dumps.
End Json.

(* ===================================================================== *)
(** ** src/ledger/ledger.py *)
(* ===================================================================== *)

Module CostLedger.

Record t := mk {
  _events : list CostEvent.t;
  _hashes : list string
}.

(** [__init__] *)
Definition new : t := mk [] [].

(** Methods run in a state-and-exception monad over the ledger: a
    raised exception keeps the state reached when it was raised. *)
Definition M (A : Type) : Type := t -> result A * t.

Definition ret {A} (a : A) : M A := fun self => (Ok a, self).
Definition raise {A} (e : Error) : M A := fun self => (Raise e, self).
Definition bind {A B} (m : M A) (k : A -> M B) : M B :=
  fun self =>
    match m self with
    | (Ok a, self') => k a self'
    | (Raise e, self') => (Raise e, self')
    end.
Definition get : M t := fun self => (Ok self, self).
Definition put (s : t) : M unit := fun _ => (Ok tt, s).

Declare Scope ledger_scope.
Delimit Scope ledger_scope with ledger.
Notation "'let*' x ':=' m 'in' k" := (bind m (fun x => k))
  (at level 10, x name, m at level 100, k at level 200) : ledger_scope.

Section Methods.
Context `{PyRuntime}.
Local Open Scope ledger_scope.

Definition _event_to_dict (event : CostEvent.t) : json :=
  JDict
    [ ("event_id", JStr (uuid_str (CostEvent.event_id event)));
      ("timestamp", JStr (isoformat (CostEvent.timestamp event)));
      ("execution_id", JStr (uuid_str (CostEvent.execution_id event)));
      ("component", JStr (CostEvent.component event));
      ("action", JStr (CostEvent.action event));
      ("unit_cost", JFloat (CostEvent.unit_cost event));
      ("quantity", JFloat (CostEvent.quantity event));
      ("total_cost", JFloat (CostEvent.total_cost event));
      ("currency", JStr (CostEvent.currency event));
      ("cost_source", JStr (CostEvent.cost_source event));
      ("pricing_version", JStr (CostEvent.pricing_version event));
      ("base_unit", JStr (CostEvent.base_unit event));
      ("metadata", match CostEvent.metadata event with
                   | None => JNull
                   | Some d => JDict d
                   end) ].

(** [json.dumps([self._event_to_dict(e) for e in events], ...)] *)
Definition serialize (events : list CostEvent.t) : string :=
  Json.dumps (JList (map _event_to_dict events)).

Definition _update_hash : M unit :=
  let* self := get in
  let data_str := serialize (_events self) in
  put (mk (_events self) (_hashes self ++ [sha256_hexdigest data_str])).

Definition add_event (event : CostEvent.t) : M unit :=
  let* self := get in
  if match last (_events self) with
     | Some latest =>
         datetime_lt (CostEvent.timestamp event) (CostEvent.timestamp latest)
     | None => false
     end
  then raise OrderingViolation
  else
    let* _ := put (mk (_events self ++ [event]) (_hashes self)) in
    _update_hash.

Definition get_events (self : t) : list CostEvent.t := _events self.

Definition get_events_by_execution (self : t) (execution_id : UUID)
    : list CostEvent.t :=
  List.filter (fun e => (CostEvent.execution_id e =? execution_id)%Z) (_events self).

Definition get_events_by_component (self : t) (component : string)
    : list CostEvent.t :=
  List.filter (fun e => String.eqb (CostEvent.component e) component) (_events self).

Definition get_total_cost (self : t) : float :=
  py_sum (map CostEvent.total_cost (_events self)).

Definition get_ledger_hash (self : t) : string :=
  match last (_hashes self) with
  | None => sha256_hexdigest "[]"
  | Some h => h
  end.


Definition replay_cost (self : t) (execution_id : UUID) : float :=
  py_sum (map CostEvent.total_cost (get_events_by_execution self execution_id)).

(** A call on the ledger: the append, or one of the reads. *)
Inductive call :=
  | AddEvent (event : CostEvent.t)
  | GetEvents
  | GetEventsByExecution (execution_id : UUID)
  | GetEventsByComponent (component : string)
  | GetTotalCost
  | GetLedgerHash
  | VerifyIntegrity (expected_hash : string)
  | ReplayCost (execution_id : UUID).

(** The ledger after a call, whether the call returned or raised. *)
Definition after (c : call) (self : t) : t :=
  match c with
  | AddEvent event => snd (add_event event self)
  | _ => self
  end.

Definition run (calls : list call) (self : t) : t :=
  fold_left (fun s c => after c s) calls self.

(** Appending a list of events, stopping at the first failure. *)
Fixpoint add_events (events : list CostEvent.t) : M unit :=
  match events with
  | [] => ret tt
  | e :: rest => let* _ := add_event e in add_events rest
  end.

End Methods.
End CostLedger.

(* ===================================================================== *)
(** ** src/replay/replay_engine.py *)
(* ===================================================================== *)

Module ReplayEngine.

Record t := mk {
  pricing_models : gmap string Pricing.PricingModel
}.

(** The tolerance of both comparisons. *)
Definition tolerance : float := 1e-6%float.

(** [try: body except Exception as e: handler(e)] on a computed body. *)
Definition try_except {A} (body : result A) (handler : Error -> result A)
    : result A :=
  match body with
  | Ok a => Ok a
  | Raise e => handler e
  end.

(** The loop [for event in events] of [replay_execution], entered with
    the running [total_cost]. *)
Fixpoint replay_events (self : t) (events : list CostEvent.t)
    (total_cost : float) : result float :=
  match events with
  | [] => Ok total_cost
  | event :: rest =>
      match pricing_models self !! CostEvent.pricing_version event with
      | None => Raise (UnknownPricingVersion (CostEvent.pricing_version event))
      | Some pricing_model =>
          match Pricing.calculate_cost pricing_model (CostEvent.quantity event) with
          | Raise e => Raise e
          | Ok calculated_cost =>
              if (tolerance <? abs (calculated_cost - CostEvent.total_cost event))%float
              then Raise (CostMismatch (CostEvent.event_id event)
                            calculated_cost (CostEvent.total_cost event))
              else replay_events self rest (total_cost + calculated_cost)%float
          end
      end
  end.

Definition replay_execution (self : t) (execution_id : UUID)
    (ledger : CostLedger.t) : result float :=
  let events := CostLedger.get_events_by_execution ledger execution_id in
  replay_events self events 0%float.
Arguments replay_execution self execution_id%_Z ledger.

(** The values stored in the report dictionary; [PyError e] stands for
    [str(e)], the message of the exception. *)
Inductive pyvalue :=
  | PyUUID (u : UUID)
  | PyFloat (f : float)
  | PyStr (s : string)
  | PyError (e : Error).

(** A Python [dict] literal, keys in the order written. *)
Definition pydict := list (string * pyvalue).

Fixpoint dict_get (d : pydict) (key : string) : option pyvalue :=
  match d with
  | [] => None
  | (k, v) :: d' => if String.eqb k key then Some v else dict_get d' key
  end.

Definition compare_replay_with_original (self : t) (execution_id : UUID)
    (original_ledger : CostLedger.t)
    (current_pricing : gmap string Pricing.PricingModel) : result pydict :=
  try_except
    (match replay_execution self execution_id original_ledger with
     | Raise e => Raise e
     | Ok replayed_cost =>
         let original_events :=
           CostLedger.get_events_by_execution original_ledger execution_id in
         let original_cost := py_sum (map CostEvent.total_cost original_events) in
         Ok [ ("execution_id", PyUUID execution_id);
              ("original_cost", PyFloat original_cost);
              ("replayed_cost", PyFloat replayed_cost);
              ("delta", PyFloat (replayed_cost - original_cost)%float);
              ("status",
               PyStr (if (abs (replayed_cost - original_cost) <? tolerance)%float
                      then "match" else "mismatch")) ]
     end)
    (fun e =>
       Ok [ ("execution_id", PyUUID execution_id);
            ("error", PyError e);
            ("status", PyStr "error") ]).

Arguments compare_replay_with_original self execution_id%_Z
  original_ledger current_pricing.
Arguments PyUUID u%_Z.
Arguments PyFloat f%_float.

End ReplayEngine.

(* ===================================================================== *)
(** ** Vocabulary of the specification *)
(* ===================================================================== *)

Module Spec.
Section WithRuntime.
Context `{PyRuntime}.

(** [hash[i]] of the specification: the digest of the serialisation of
    [events[0..i]]. *)
Definition hash_at (events : list CostEvent.t) (i : nat) : string :=
  sha256_hexdigest (CostLedger.serialize (take (S i) events)).

Definition prefix_hashes (events : list CostEvent.t) : list string :=
  map (hash_at events) (seq 0 (length events)).

(** The event sequence is non-decreasing by timestamp. *)
Definition nondecreasing (events : list CostEvent.t) : Prop :=
  forall (i j : nat) (a b : CostEvent.t),
    i <= j -> events !! i = Some a -> events !! j = Some b ->
    (instant_us (CostEvent.timestamp a) <= instant_us (CostEvent.timestamp b))%Z.


(** The test of [add_event], as a boolean on the state. *)
Definition rejects (self : CostLedger.t) (event : CostEvent.t) : bool :=
  match last (CostLedger._events self) with
  | Some latest =>
      datetime_lt (CostEvent.timestamp event) (CostEvent.timestamp latest)
  | None => false
  end.

(** What every reachable ledger satisfies: one hash per event, each
    covering the events up to its index, and timestamps in order. *)
Definition well_formed (self : CostLedger.t) : Prop :=
  CostLedger._hashes self = prefix_hashes (CostLedger._events self) /\
  nondecreasing (CostLedger._events self).

(** No two strings have the same digest. *)
Definition collision_free : Prop :=
  forall a b : string, sha256_hexdigest a = sha256_hexdigest b -> a = b.

End WithRuntime.

(** The reconciliation of one event by [replay_execution]: the catalog
    lookup, the recomputation and the comparison with the recorded
    [total_cost]. *)
Definition check_event (self : ReplayEngine.t) (event : CostEvent.t)
    : result float :=
  match ReplayEngine.pricing_models self !! CostEvent.pricing_version event with
  | None => Raise (UnknownPricingVersion (CostEvent.pricing_version event))
  | Some pricing_model =>
      match Pricing.calculate_cost pricing_model (CostEvent.quantity event) with
      | Raise e => Raise e
      | Ok calculated_cost =>
          if (ReplayEngine.tolerance
                <? abs (calculated_cost - CostEvent.total_cost event))%float
          then Raise (CostMismatch (CostEvent.event_id event)
                        calculated_cost (CostEvent.total_cost event))
          else Ok calculated_cost
      end
  end.

(** Every event of the list reconciles, with these recomputed costs. *)
Definition all_reconcile (self : ReplayEngine.t) (events : list CostEvent.t)
    (costs : list float) : Prop :=
  Forall2 (fun e c => check_event self e = Ok c) events costs.

(** A runtime to run the ledger on concrete inputs: the digest is the
    serialisation itself, scalars print as decimal integers or fixed
    tags. *)
Definition plain_runtime : PyRuntime :=
  {| sha256_hexdigest := fun s => s;
     float_repr := fun _ => "<float>";
     encode_basestring_ascii := fun s => ("'" ++ s ++ "'")%string;
     uuid_str := Json.int_repr;
     isoformat := fun d => Json.int_repr (instant_us d) |}.

(** Sample events: execution 7, timestamps given. *)
Definition sample_event (event_id : UUID) (instant : Z) (pricing_version : string)
    (unit_cost quantity total_cost : float) : CostEvent.t :=
  CostEvent.mk event_id (mkDatetime instant 0) 7%Z "model" "invoke"
    unit_cost quantity total_cost "USD" "openai" pricing_version "token" None.
Arguments sample_event event_id%_Z instant%_Z pricing_version%_string
  (unit_cost quantity total_cost)%_float.

(** The catalog of the tests: ["gpt-4:v1.0.0"] with the tiers
    [0,10000)@0.03 and [10000, unbounded)@0.02. *)
Definition gpt4_model : Pricing.PricingModel :=
  Pricing.mkModel 4%Z "v1.0.0" "gpt-4" "token" "token"
    [ Pricing.mkTier 0%float (Some 10000%float) 0.03%float;
      Pricing.mkTier 10000%float None 0.02%float ]
    None None.

Definition test_catalog : gmap string Pricing.PricingModel :=
  {[ "gpt-4:v1.0.0" := gpt4_model ]}.

Definition test_engine : ReplayEngine.t := ReplayEngine.mk test_catalog.

(** The events of the replay tests: 1500 tokens at 0.03 recorded as 45.0;
    the same under a pricing version that the catalog does not have; and
    1500 tokens at 0.02 recorded as 30.0, which the catalog prices at 45.0. *)
Definition matching_event : CostEvent.t :=
  sample_event 1 10 "gpt-4:v1.0.0" 0.03 1500 45.
Definition unknown_version_event : CostEvent.t :=
  sample_event 2 10 "unknown:v1.0.0" 0.03 1500 45.
Definition drifted_event : CostEvent.t :=
  sample_event 3 10 "gpt-4:v1.0.0" 0.02 1500 30.

(** A ledger holding one event of execution 7, built by [add_event]. *)
Definition one_event_ledger (event : CostEvent.t) : CostLedger.t :=
  snd (CostLedger.add_event (H := plain_runtime) event CostLedger.new).

End Spec.

(* ===================================================================== *)
(** ** Stable insertion sort, the shape of both [sorted] calls *)
(* ===================================================================== *)

Module InsertionSort.
Section Generic.
Context {A : Type} (lt : A -> A -> bool).

(** Insertion after every element that compares strictly smaller, which
    is what [Pricing.insert_tier] and [Json.insert_item] do with their
    own comparisons. *)
Fixpoint insert (x : A) (l : list A) : list A :=
  match l with
  | [] => [x]
  | y :: l' => if lt y x then y :: insert x l' else x :: l
  end.

Definition sort (l : list A) : list A := fold_right insert [] l.

(** Any two elements at different positions compare strictly, one way or
    the other. *)
Definition pairwise_ordered (l : list A) : Prop :=
  ForallOrdPairs (fun a b => lt a b = true \/ lt b a = true) l.

End Generic.
End InsertionSort.

(** The comparison of [sorted(self.tiers, key=lambda t: t.min_quantity)]. *)
Definition tier_lt (a b : Pricing.PricingTier) : bool :=
  (Pricing.min_quantity a <? Pricing.min_quantity b)%float.

(** The comparison of dictionary items under [sort_keys=True]. *)
Definition item_lt (a b : string * string) : bool := String.ltb (fst a) (fst b).

(* ===================================================================== *)
(** ** src/adapters/adapter.py *)
(* ===================================================================== *)

Module ExecutionTranscriptAdapter.

(** What [to_cost_events] can raise: a subscript on a missing key, the
    [ValueError] of [UUID(text)] on a string that is no UUID, and the
    error of the [CostEvent] constructor. *)
Inductive exn :=
  | KeyError (key : string)
  | MalformedUUID (text : string)
  | EventError (e : Error).

Inductive outcome (A : Type) :=
  | Returns (a : A)
  | Raises (e : exn).
Arguments Returns {A} a.
Arguments Raises {A} e.

Definition and_then {A B} (m : outcome A) (k : A -> outcome B) : outcome B :=
  match m with
  | Returns a => k a
  | Raises e => Raises e
  end.

Declare Scope adapter_scope.
Delimit Scope adapter_scope with adapter.
Notation "'let*' x ':=' m 'in' k" := (and_then m (fun x => k))
  (at level 10, x name, m at level 100, k at level 200) : adapter_scope.

(** One entry of [data["model_invocations"]]: a dictionary whose values,
    where present, have the types of the fields they feed; an absent key
    is [None]. *)
Record invocation := mkInvocation {
  event_id : option string;
  timestamp : option datetime;
  unit_cost : option float;
  quantity : option float;
  total_cost : option float;
  currency : option string;
  cost_source : option string;
  pricing_version : option string;
  base_unit : option string
}.

(** The transcript [data], read at its two keys. *)
Record transcript := mkTranscript {
  execution_id : option string;
  model_invocations : option (list invocation)
}.

(** [d[key]] *)
Definition subscript {A} (key : string) (value : option A) : outcome A :=
  match value with
  | Some a => Returns a
  | None => Raises (KeyError key)
  end.

(** [d.get(key, default)] *)
Definition get_default {A} (value : option A) (default : A) : A :=
  match value with
  | Some a => a
  | None => default
  end.

Section WithUUID.
(** [uuid.UUID(text)]: the UUID that the text denotes, if it denotes one. *)
Variable uuid_of_string : string -> option UUID.
Local Open Scope adapter_scope.

Definition parse_uuid (text : string) : outcome UUID :=
  match uuid_of_string text with
  | Some u => Returns u
  | None => Raises (MalformedUUID text)
  end.

(** The body of the loop: the arguments of [CostEvent(...)] are evaluated
    in the order written, then the constructor runs. *)
Definition to_cost_event (data : transcript) (inv : invocation)
    : outcome CostEvent.t :=
  let* event_id_text := subscript "event_id" (event_id inv) in
  let* event_id := parse_uuid event_id_text in
  let* timestamp := subscript "timestamp" (timestamp inv) in
  let* execution_id_text := subscript "execution_id" (execution_id data) in
  let* execution_id := parse_uuid execution_id_text in
  let* unit_cost := subscript "unit_cost" (unit_cost inv) in
  let* quantity := subscript "quantity" (quantity inv) in
  let* total_cost := subscript "total_cost" (total_cost inv) in
  let* currency := subscript "currency" (currency inv) in
  let* cost_source := subscript "cost_source" (cost_source inv) in
  let* pricing_version := subscript "pricing_version" (pricing_version inv) in
  let base_unit := get_default (base_unit inv) "token" in
  match CostEvent.new event_id timestamp execution_id "model" "invoke"
          unit_cost quantity total_cost currency cost_source pricing_version
          base_unit None with
  | Ok event => Returns event
  | Raise e => Raises (EventError e)
  end.

(** [for invocation in ...: events.append(CostEvent(...))], entered with
    the events collected so far. *)
Fixpoint collect (data : transcript) (invocations : list invocation)
    (events : list CostEvent.t) : outcome (list CostEvent.t) :=
  match invocations with
  | [] => Returns events
  | inv :: rest =>
      let* event := to_cost_event data inv in
      collect data rest (events ++ [event])
  end.

Definition to_cost_events (data : transcript) : outcome (list CostEvent.t) :=
  collect data (get_default (model_invocations data) []) [].

End WithUUID.

(** A reading of UUID texts for concrete runs: decimal digits "1" to "3". *)
Definition digit_uuid (text : string) : option UUID :=
  if String.eqb text "1" then Some 1%Z
  else if String.eqb text "2" then Some 2%Z
  else if String.eqb text "3" then Some 3%Z
  else None.

Definition sample_invocation (id : string) (instant : Z)
    (unit_cost quantity total_cost : float) : invocation :=
  mkInvocation (Some id) (Some (mkDatetime instant 0)) (Some unit_cost)
    (Some quantity) (Some total_cost) (Some "USD") (Some "openai")
    (Some "gpt-4:v1.0.0") None.
Arguments sample_invocation id%_string instant%_Z
  (unit_cost quantity total_cost)%_float.

End ExecutionTranscriptAdapter.

(* ===================================================================== *)
(** * Properties *)
(* ===================================================================== *)

(* --------------------------------------------------------------------- *)
(** ** Binary64 facts used by the pricing proofs *)
(* --------------------------------------------------------------------- *)

Module FloatFacts.

Lemma spec_zero : Prim2SF 0%float = S754_zero false.
Proof. reflexivity. Qed.

Lemma spec_infinity : Prim2SF infinity = S754_infinity false.
Proof. reflexivity. Qed.

(** [x - 0.0] is [x], for every float. *)
Lemma sub_zero_r (x : float) : (x - 0)%float = x.
Proof.
  apply Prim2SF_inj. rewrite sub_spec, spec_zero.
  destruct (Prim2SF x) as [[|]|[|]| |[|] m e]; reflexivity.
Qed.

(** The floats that compare [>= 0]: the zeros, [+inf] and the positive
    finite numbers. *)
Lemma nonneg_cases (q : float) :
  (0 <=? q)%float = true ->
  (exists s, Prim2SF q = S754_zero s) \/
  Prim2SF q = S754_infinity false \/
  (exists m e, Prim2SF q = S754_finite false m e).
Proof.
  rewrite leb_spec, spec_zero.
  destruct (Prim2SF q) as [s|[|]| |[|] m e]; cbn; try discriminate; eauto.
Qed.

Lemma nonneg_not_neg (q : float) :
  (0 <=? q)%float = true -> (q <? 0)%float = false.
Proof.
  intros Hq. destruct (nonneg_cases q Hq) as [[s E]|[E|(m & e & E)]];
    rewrite ltb_spec, spec_zero, E; reflexivity.
Qed.

Lemma infinity_not_below (q : float) : (infinity <? q)%float = false.
Proof.
  rewrite ltb_spec, spec_infinity.
  destruct (Prim2SF q) as [s|[|]| |[|] m e]; reflexivity.
Qed.

Lemma nonpos_nonneg_is_zero (q : float) :
  (0 <=? q)%float = true -> (q <=? 0)%float = true ->
  exists s, Prim2SF q = S754_zero s.
Proof.
  intros Hq Hle. destruct (nonneg_cases q Hq) as [[s E]|[E|(m & e & E)]].
  - eauto.
  - rewrite leb_spec, spec_zero, E in Hle. discriminate.
  - rewrite leb_spec, spec_zero, E in Hle. discriminate.
Qed.

Lemma pos_of_not_nonpos (q : float) :
  (0 <=? q)%float = true -> (q <=? 0)%float = false -> (0 <? q)%float = true.
Proof.
  intros Hq Hle. destruct (nonneg_cases q Hq) as [[s E]|[E|(m & e & E)]];
    rewrite ?leb_spec, ?ltb_spec, spec_zero, E in *; try reflexivity.
  discriminate.
Qed.

(** [q - q] is never above a positive threshold: it is a zero, or NaN
    when [q] is infinite. *)
Lemma sub_diag_spec (q : float) :
  Prim2SF (q - q)%float = S754_nan \/ exists s, Prim2SF (q - q)%float = S754_zero s.
Proof.
  rewrite sub_spec.
  destruct (Prim2SF q) as [[|]|[|]| |s m e]; cbn; eauto.
  right. exists false.
  unfold SF64sub, SFsub. rewrite Z.sub_diag. reflexivity.
Qed.

Lemma sub_diag_small (q : float) : (1e-9 <? q - q)%float = false.
Proof.
  rewrite ltb_spec.
  destruct (sub_diag_spec q) as [E|[s E]]; rewrite E; reflexivity.
Qed.

(** Multiplication is commutative, bit for bit. *)
Lemma SF64mul_comm (x y : spec_float) : SF64mul x y = SF64mul y x.
Proof.
  unfold SF64mul, SFmul.
  destruct x as [sx|sx| |sx mx ex], y as [sy|sy| |sy my ey];
    rewrite ?(xorb_comm sx sy); try reflexivity.
  now rewrite (Pos.mul_comm mx my), (Z.add_comm ex ey).
Qed.

Lemma mul_comm (x y : float) : (x * y)%float = (y * x)%float.
Proof. apply Prim2SF_inj. rewrite !mul_spec. apply SF64mul_comm. Qed.

(** [0.0 + x == x] unless [x] is NaN. *)
Lemma add_zero_l_eqb (x : float) :
  is_nan x = false -> (0 + x =? x)%float = true.
Proof.
  unfold is_nan. rewrite !FloatAxioms.eqb_spec, add_spec, spec_zero.
  destruct (Prim2SF x) as [[|]|[|]| |s m e]; cbn; try discriminate; try reflexivity.
  intros Hx. apply negb_false_iff in Hx. exact Hx.
Qed.

Lemma zero_eqb_zero (x : float) (s : bool) :
  Prim2SF x = S754_zero s -> (0 =? x)%float = true.
Proof. intros E. rewrite FloatAxioms.eqb_spec, spec_zero, E. reflexivity. Qed.

(** *** Rounding never produces NaN *)

Lemma shr_1_nonneg (mrs : shr_record) :
  (0 <= shr_m mrs)%Z -> (0 <= shr_m (shr_1 mrs))%Z.
Proof.
  destruct mrs as [m r s]. destruct m as [|[p|p|]|p]; cbn; lia.
Qed.

Lemma iter_shr_1_nonneg (p : positive) :
  forall mrs, (0 <= shr_m mrs)%Z -> (0 <= shr_m (SpecFloat.iter_pos shr_1 p mrs))%Z.
Proof.
  induction p as [p IH|p IH|]; intros mrs Hm; cbn.
  - apply IH, IH, shr_1_nonneg, Hm.
  - apply IH, IH, Hm.
  - apply shr_1_nonneg, Hm.
Qed.

Lemma shr_fexp_nonneg (m e : Z) (l : location) :
  (0 <= m)%Z -> (0 <= shr_m (fst (shr_fexp prec emax m e l)))%Z.
Proof.
  intros Hm. unfold shr_fexp, shr.
  assert (H0 : (0 <= shr_m (shr_record_of_loc m l))%Z)
    by (destruct l as [|[| |]]; exact Hm).
  destruct (fexp prec emax (Zdigits2 m + e) - e)%Z; cbn [fst]; auto.
  apply iter_shr_1_nonneg, H0.
Qed.

Lemma round_nearest_even_nonneg (m : Z) (l : location) :
  (0 <= m)%Z -> (0 <= round_nearest_even m l)%Z.
Proof.
  intros Hm. destruct l as [|[| |]]; cbn; try lia.
  destruct (Z.even m); lia.
Qed.

Lemma binary_round_aux_not_nan (s : bool) (m e : Z) (l : location) :
  (0 <= m)%Z -> binary_round_aux prec emax s m e l <> S754_nan.
Proof.
  intros Hm. unfold binary_round_aux.
  pose proof (shr_fexp_nonneg m e l Hm) as H1.
  destruct (shr_fexp prec emax m e l) as [mrs' e'] eqn:E1. cbn [fst] in H1.
  pose proof (shr_fexp_nonneg _ e' loc_Exact
                (round_nearest_even_nonneg _ (loc_of_shr_record mrs') H1)) as H2.
  destruct (shr_fexp prec emax _ e' loc_Exact) as [mrs'' e''] eqn:E2.
  cbn [fst] in H2.
  destruct (shr_m mrs'') as [|p|p]; try discriminate.
  - destruct (e'' <=? emax - prec)%Z; discriminate.
  - lia.
Qed.

(** A finite float is a zero or a finite number. *)
Lemma finite_cases (x : float) :
  is_finite x = true ->
  (exists s, Prim2SF x = S754_zero s) \/
  (exists s m e, Prim2SF x = S754_finite s m e).
Proof.
  unfold is_finite, is_nan, is_infinity.
  rewrite !FloatAxioms.eqb_spec, abs_spec, spec_infinity.
  destruct (Prim2SF x) as [s|[|]| |s m e]; cbn; try discriminate; eauto.
Qed.

Lemma mul_finite_not_nan (c q : float) :
  is_finite c = true -> is_finite q = true -> is_nan (c * q)%float = false.
Proof.
  intros Hc Hq. unfold is_nan. rewrite FloatAxioms.eqb_spec, mul_spec.
  assert (Hn : SF64mul (Prim2SF c) (Prim2SF q) <> S754_nan).
  { destruct (finite_cases c Hc) as [[sc Ec]|(sc & mc & ec & Ec)];
      destruct (finite_cases q Hq) as [[sq Eq_]|(sq & mq & eq_ & Eq_)];
      rewrite Ec, Eq_; cbn; try discriminate.
    apply binary_round_aux_not_nan. lia. }
  destruct (SF64mul (Prim2SF c) (Prim2SF q)) as [[|]|[|]| |[|] m e];
    try reflexivity; try congruence; cbn.
  - unfold SFeqb, SFcompare. rewrite Z.compare_refl, Pos.compare_cont_refl. reflexivity.
  - unfold SFeqb, SFcompare. rewrite Z.compare_refl, Pos.compare_cont_refl. reflexivity.
Qed.

End FloatFacts.

(* --------------------------------------------------------------------- *)
(** ** Pricing: [calculate_cost] *)
(* --------------------------------------------------------------------- *)

Module PricingProps.
Import Pricing.

Lemma insert_tier_not_nil (t : PricingTier) (l : list PricingTier) :
  insert_tier t l <> [].
Proof. destruct l as [|u l]; cbn; [|destruct (_ <? _)%float]; discriminate. Qed.

(** Sorting a non-empty tier list gives a non-empty list: the second
    [NoPricingTiers] branch of the embedding is not reached. *)
Lemma sorted_not_nil (l : list PricingTier) : l <> [] -> sorted l <> [].
Proof.
  destruct l as [|t l]; [intros Hl; now destruct Hl|].
  intros _. cbn. apply insert_tier_not_nil.
Qed.

Lemma insert_tier_length (t : PricingTier) (l : list PricingTier) :
  length (insert_tier t l) = S (length l).
Proof.
  induction l as [|u l IH]; cbn; [reflexivity|].
  destruct (_ <? _)%float; cbn; congruence.
Qed.

Lemma sorted_length (l : list PricingTier) : length (sorted l) = length l.
Proof.
  unfold sorted. induction l as [|t l IH]; cbn; [reflexivity|].
  rewrite insert_tier_length. congruence.
Qed.




(** C8: on the two-tier model [0,1000)@0.01, [1000,inf)@0.005 the costs
    of 500, 1000 and 1500 are exactly 5.0, 10.0 and 12.5; the last is the
    sum of each tier's rate on the part of the quantity inside the tier,
    and is neither tier's rate applied to the whole quantity. *)
Theorem two_tier_costs :
  calculate_cost two_tier_model 500%float = Ok 5%float /\
  calculate_cost two_tier_model 1000%float = Ok 10%float /\
  calculate_cost two_tier_model 1500%float = Ok 12.5%float /\
  calculate_cost two_tier_model 1500%float
    = Ok (0 + 1000 * 0.01 + 500 * 0.005)%float /\
  calculate_cost two_tier_model 1500%float <> Ok (1500 * 0.005)%float /\
  calculate_cost two_tier_model 1500%float <> Ok (1500 * 0.01)%float.
Proof.
  repeat split; try (vm_compute; reflexivity).
  - intros E.
    apply (f_equal (fun r => match r with
                             | Ok x => (x =? 12.5)%float
                             | Raise _ => false
                             end)) in E.
    vm_compute in E. discriminate.
  - intros E.
    apply (f_equal (fun r => match r with
                             | Ok x => (x =? 12.5)%float
                             | Raise _ => false
                             end)) in E.
    vm_compute in E. discriminate.
Qed.

(** [calculate_cost] reads only the tiers and the fixed fee of the model. *)
Lemma calculate_cost_fields (a b : PricingModel) (quantity : float) :
  tiers a = tiers b -> fixed_fee a = fixed_fee b ->
  calculate_cost a quantity = calculate_cost b quantity.
Proof.
  intros Ht Hf. unfold calculate_cost, fixed_fee_or_zero. now rewrite Ht, Hf.
Qed.

(** The value computed on the single unbounded tier: nothing is walked
    for a zero quantity, and one tier takes the whole of a positive one. *)
Lemma single_tier_value (c q : float) :
  (0 <=? q)%float = true ->
  calculate_cost (single_tier_model c) q =
    Ok (if (q <=? 0)%float then 0 else 0 + q * c)%float.
Proof.
  intros Hq. unfold calculate_cost, single_tier_model.
  cbn [tiers fixed_fee fixed_fee_or_zero sorted fold_right insert_tier min_quantity].
  rewrite (FloatFacts.nonneg_not_neg q Hq).
  cbn [walk_tiers remaining_quantity min_quantity].
  destruct (q <=? 0)%float eqn:Hle.
  - cbn [remaining_quantity total_cost].
    destruct (FloatFacts.nonpos_nonneg_is_zero q Hq Hle) as [s E].
    unfold epsilon. rewrite ltb_spec, E. reflexivity.
  - rewrite (FloatFacts.nonneg_not_neg q Hq).
    unfold walk_tier.
    cbn [min_quantity max_quantity unit_cost processed_up_to
         total_cost remaining_quantity].
    replace (py_max 0 0) with 0%float by reflexivity.
    unfold py_min. rewrite FloatFacts.infinity_not_below.
    rewrite FloatFacts.sub_zero_r.
    rewrite (FloatFacts.pos_of_not_nonpos q Hq Hle).
    cbn [remaining_quantity total_cost].
    unfold epsilon. rewrite FloatFacts.sub_diag_small. reflexivity.
Qed.

(** The same equality whenever the product [c * q] is a number, also
    for an infinite quantity or unit cost. *)
Lemma single_tier_cost_when_defined (c q : float) :
  (0 <=? q)%float = true -> is_nan (c * q)%float = false ->
  exists cost, calculate_cost (single_tier_model c) q = Ok cost /\
               (cost =? c * q)%float = true.
Proof.
  intros Hq Hn. rewrite (single_tier_value c q Hq).
  eexists; split; [reflexivity|].
  destruct (q <=? 0)%float eqn:Hle.
  - destruct (FloatFacts.nonpos_nonneg_is_zero q Hq Hle) as [s E].
    revert Hn. unfold is_nan.
    rewrite !FloatAxioms.eqb_spec, mul_spec, E, FloatFacts.spec_zero.
    destruct (Prim2SF c) as [sc|sc| |sc mc ec]; cbn; try discriminate; reflexivity.
  - rewrite (FloatFacts.mul_comm q c). now apply FloatFacts.add_zero_l_eqb.
Qed.

(** C9: a model with no fixed fee and exactly one tier, from 0, unbounded,
    at unit cost [c]: for every finite [c] and every finite quantity
    [q >= 0] (zero included) [calculate_cost] returns a cost, and that
    cost is equal ([==] on floats) to [c * q]. *)
Theorem single_tier_cost (self : PricingModel) (c q : float) :
  fixed_fee self = None ->
  tiers self = [mkTier 0%float None c] ->
  is_finite c = true -> is_finite q = true -> (0 <=? q)%float = true ->
  exists cost, calculate_cost self q = Ok cost /\ (cost =? c * q)%float = true.
Proof.
  intros Hfee Htiers Hc Hf Hq.
  rewrite (calculate_cost_fields self (single_tier_model c) q Htiers Hfee).
  apply single_tier_cost_when_defined; [exact Hq|].
  now apply FloatFacts.mul_finite_not_nan.
Qed.

(** C9 on the model of [test_single_unbounded_tier], for 100 units and
    for none. *)
Lemma single_tier_cost_witness :
  (exists cost, calculate_cost (single_tier_model 0.01%float) 100%float = Ok cost /\
                (cost =? 0.01 * 100)%float = true) /\
  (exists cost, calculate_cost (single_tier_model 0.01%float) 0%float = Ok cost /\
                (cost =? 0.01 * 0)%float = true).
Proof. split; apply (single_tier_cost _ 0.01%float); reflexivity. Defined.

End PricingProps.

(* --------------------------------------------------------------------- *)
(** ** Serialisation: a longer event list has a longer serialisation *)
(* --------------------------------------------------------------------- *)

Module JsonProps.
Section WithRuntime.
Context `{PyRuntime}.

Lemma string_length_app (a b : string) :
  String.length (a ++ b) = String.length a + String.length b.
Proof.
  induction a as [|c a IH]; [reflexivity|].
  change (S (String.length (a ++ b)) = S (String.length a + String.length b)).
  now rewrite IH.
Qed.

Lemma concat_snoc_longer (sep x : string) (l : list string) :
  0 < String.length x ->
  String.length (String.concat sep l) < String.length (String.concat sep (l ++ [x])).
Proof.
  intros Hx. induction l as [|a [|b l] IH].
  - change (String.concat sep ([] ++ [x])) with x. cbn. lia.
  - change (String.concat sep ([a] ++ [x])) with (a ++ sep ++ x)%string.
    change (String.concat sep [a]) with a.
    rewrite !string_length_app. lia.
  - change (String.concat sep (a :: b :: l))
      with (a ++ sep ++ String.concat sep (b :: l))%string.
    change (String.concat sep ((a :: b :: l) ++ [x]))
      with (a ++ sep ++ String.concat sep ((b :: l) ++ [x]))%string.
    rewrite !string_length_app. lia.
Qed.

Lemma dumps_dict_nonempty (items : list (string * json)) :
  0 < String.length (Json.dumps (JDict items)).
Proof.
  change (Json.dumps (JDict items))
    with (String "{"%char
            (String.concat ", "
               (map Json.render_item
                  (Json.sort_items
                     (map (fun kv => (fst kv, Json.dumps (snd kv))) items)))
             ++ "}")%string).
  cbn [String.length]. lia.
Qed.

Lemma dumps_list (l : list json) :
  Json.dumps (JList l) = ("[" ++ String.concat ", " (map Json.dumps l) ++ "]")%string.
Proof. reflexivity. Qed.

End WithRuntime.
End JsonProps.

(* --------------------------------------------------------------------- *)
(** ** The ledger *)
(* --------------------------------------------------------------------- *)

Module LedgerProps.
Import CostLedger Spec.
Section WithRuntime.
Context `{PyRuntime}.

Lemma serialize_eq (events : list CostEvent.t) :
  serialize events =
    ("[" ++ String.concat ", " (map (fun e => Json.dumps (_event_to_dict e)) events)
         ++ "]")%string.
Proof. unfold serialize. rewrite JsonProps.dumps_list, map_map. reflexivity. Qed.

Lemma serialize_nil : serialize [] = "[]".
Proof. reflexivity. Qed.

Lemma serialize_snoc_longer (events : list CostEvent.t) (e : CostEvent.t) :
  String.length (serialize events) < String.length (serialize (events ++ [e])).
Proof.
  rewrite !serialize_eq, map_app, !JsonProps.string_length_app.
  cbn [map].
  pose proof (JsonProps.concat_snoc_longer ", " (Json.dumps (_event_to_dict e))
                (map (fun e => Json.dumps (_event_to_dict e)) events)
                (JsonProps.dumps_dict_nonempty _)).
  lia.
Qed.

Lemma serialize_snoc_neq (events : list CostEvent.t) (e : CostEvent.t) :
  serialize (events ++ [e]) <> serialize events.
Proof.
  intros E. pose proof (serialize_snoc_longer events e) as Hlt.
  rewrite E in Hlt. lia.
Qed.

Lemma add_event_eq (event : CostEvent.t) (self : t) :
  add_event event self =
    if rejects self event then (Raise OrderingViolation, self)
    else (Ok tt,
          mk (_events self ++ [event])
             (_hashes self
                ++ [sha256_hexdigest (serialize (_events self ++ [event]))])).
Proof.
  unfold add_event, rejects, bind, get, put, raise, _update_hash.
  destruct (last (_events self)) as [latest|]; [|reflexivity].
  destruct (datetime_lt _ _); reflexivity.
Qed.


Lemma prefix_hashes_snoc (events : list CostEvent.t) (e : CostEvent.t) :
  prefix_hashes (events ++ [e])
    = prefix_hashes events ++ [sha256_hexdigest (serialize (events ++ [e]))].
Proof.
  unfold prefix_hashes. rewrite length_app. cbn [length].
  replace (length events + 1) with (S (length events)) by lia.
  rewrite seq_S, map_app. cbn [map]. f_equal.
  - apply map_ext_in. intros i Hi. apply in_seq in Hi.
    unfold hash_at. rewrite take_app_le by lia. reflexivity.
  - unfold hash_at. cbn [Nat.add].
    rewrite take_ge by (rewrite length_app; cbn; lia). reflexivity.
Qed.



Lemma nondecreasing_nil : nondecreasing [].
Proof. intros i j a b _ Ha. discriminate. Qed.

Lemma nondecreasing_snoc (events : list CostEvent.t) (e : CostEvent.t) :
  nondecreasing events ->
  (forall latest, last events = Some latest ->
     (instant_us (CostEvent.timestamp latest)
        <= instant_us (CostEvent.timestamp e))%Z) ->
  nondecreasing (events ++ [e]).
Proof.
  intros Hs Hlast i j a b Hij Ha Hb.
  destruct (decide (j < length events)) as [Hj|Hj].
  - rewrite lookup_app_l in Ha by lia. rewrite lookup_app_l in Hb by lia.
    exact (Hs i j a b Hij Ha Hb).
  - rewrite lookup_app_r in Hb by lia.
    destruct (j - length events) as [|k] eqn:Ej; [|destruct k; discriminate].
    injection Hb as <-.
    destruct (decide (i < length events)) as [Hi|Hi].
    + rewrite lookup_app_l in Ha by lia.
      destruct (last events) as [latest|] eqn:El.
      * pose proof (Hlast latest eq_refl) as Hle.
        rewrite last_lookup in El.
        pose proof (Hs i (pred (length events)) a latest ltac:(lia) Ha El).
        lia.
      * apply last_None in El. subst events. cbn in Hi. lia.
    + rewrite lookup_app_r in Ha by lia.
      destruct (i - length events) as [|k] eqn:Ei; [|destruct k; discriminate].
      injection Ha as <-. lia.
Qed.

Lemma well_formed_new : well_formed new.
Proof. split; [reflexivity|apply nondecreasing_nil]. Qed.

Lemma add_event_well_formed (event : CostEvent.t) (self : t) :
  well_formed self -> well_formed (snd (add_event event self)).
Proof.
  intros [Hh Hs]. rewrite add_event_eq.
  destruct (rejects self event) eqn:Hr; cbn [snd]; [now split|].
  split; cbn [_events _hashes].
  - rewrite prefix_hashes_snoc. now rewrite Hh.
  - apply nondecreasing_snoc; [exact Hs|].
    intros latest Hl. unfold rejects, datetime_lt in Hr. rewrite Hl in Hr.
    apply Z.ltb_ge in Hr. exact Hr.
Qed.

Lemma after_well_formed (c : call) (self : t) :
  well_formed self -> well_formed (after c self).
Proof. destruct c; cbn [after]; auto using add_event_well_formed. Qed.

Lemma run_well_formed (calls : list call) :
  forall self, well_formed self -> well_formed (run calls self).
Proof.
  unfold run. induction calls as [|c calls IH]; intros self Hwf; cbn [fold_left].
  - exact Hwf.
  - apply IH, after_well_formed, Hwf.
Qed.


Lemma get_ledger_hash_well_formed (self : t) :
  well_formed self ->
  get_ledger_hash self = sha256_hexdigest (serialize (_events self)).
Proof.
  intros [Hh _]. unfold get_ledger_hash. rewrite Hh.
  destruct (_events self) as [|e0 l0] using rev_ind; [reflexivity|].
  rewrite prefix_hashes_snoc, last_snoc. reflexivity.
Qed.

Lemma add_events_ok (events : list CostEvent.t) :
  forall self after_all : t,
    add_events events self = (Ok tt, after_all) ->
    well_formed self ->
    _events after_all = _events self ++ events /\ well_formed after_all.
Proof.
  induction events as [|e rest IH]; intros self after_all Hrun Hwf.
  - injection Hrun as <-. rewrite app_nil_r. now split.
  - cbn [add_events] in Hrun. unfold bind in Hrun.
    pose proof (add_event_well_formed e self Hwf) as Hwf'.
    rewrite add_event_eq in Hrun, Hwf'.
    destruct (rejects self e); [discriminate|]. cbn [snd] in Hwf'.
    destruct (IH _ _ Hrun Hwf') as [He Hw]. split; [|exact Hw].
    rewrite He. cbn [_events]. now rewrite <- app_assoc.
Qed.

Lemma prefix_hashes_by_dict (es1 es2 : list CostEvent.t) :
  map _event_to_dict es1 = map _event_to_dict es2 ->
  prefix_hashes es1 = prefix_hashes es2.
Proof.
  intros Hd. unfold prefix_hashes.
  assert (Hlen : length es1 = length es2).
  { rewrite <- (length_map _event_to_dict es1), Hd. apply length_map. }
  rewrite Hlen. apply map_ext. intros i.
  unfold hash_at, serialize. now rewrite <- !firstn_map, Hd.
Qed.

(** C3: the hash of the new ledger is the digest of ["[]"], a constant;
    if the digest has no collision, a successful [add_event] on a
    reachable ledger changes [get_ledger_hash]; and two fresh ledgers fed
    event lists with the same serialised fields end with the same hash
    list and the same [get_ledger_hash]. *)
Theorem ledger_hash_properties :
  get_ledger_hash new = sha256_hexdigest "[]" /\
  (collision_free ->
   forall (calls : list call) (event : CostEvent.t),
     fst (add_event event (run calls new)) = Ok tt ->
     get_ledger_hash (snd (add_event event (run calls new)))
       <> get_ledger_hash (run calls new)) /\
  (forall (es1 es2 : list CostEvent.t) (l1 l2 : t),
     add_events es1 new = (Ok tt, l1) ->
     add_events es2 new = (Ok tt, l2) ->
     map _event_to_dict es1 = map _event_to_dict es2 ->
     _hashes l1 = _hashes l2 /\ get_ledger_hash l1 = get_ledger_hash l2).
Proof.
  split; [reflexivity|]. split.
  - intros Hcf calls event Hok.
    pose proof (run_well_formed calls new well_formed_new) as Hwf.
    pose proof (add_event_well_formed event _ Hwf) as Hwf'.
    rewrite (get_ledger_hash_well_formed _ Hwf), (get_ledger_hash_well_formed _ Hwf').
    rewrite add_event_eq in Hok |- *.
    destruct (rejects (run calls new) event); [discriminate|].
    cbn [snd _events].
    intros E. apply Hcf in E. now apply serialize_snoc_neq in E.
  - intros es1 es2 l1 l2 H1 H2 Hd.
    destruct (add_events_ok es1 new l1 H1 well_formed_new) as [E1 [Hh1 _]].
    destruct (add_events_ok es2 new l2 H2 well_formed_new) as [E2 [Hh2 _]].
    cbn in E1, E2.
    assert (Hhashes : _hashes l1 = _hashes l2).
    { rewrite Hh1, Hh2, E1, E2. now apply prefix_hashes_by_dict. }
    split; [exact Hhashes|].
    unfold get_ledger_hash. now rewrite Hhashes.
Qed.


End WithRuntime.


(** C3 on concrete ledgers, with the digest that returns its input (it
    has no collision): appending to a one-event ledger changes the hash,
    and two fresh ledgers fed the same two events agree. *)
Lemma ledger_hash_properties_witness :
  let H := plain_runtime in
  let e10 := sample_event 1 10 "gpt-4:v1.0.0" 1 1 1 in
  let e11 := sample_event 2 11 "gpt-4:v1.0.0" 1 1 1 in
  get_ledger_hash (snd (add_event e11 (run [AddEvent e10] new)))
    <> get_ledger_hash (run [AddEvent e10] new) /\
  _hashes (snd (add_events [e10; e11] new))
    = _hashes (run [AddEvent e10; GetLedgerHash; AddEvent e11] new).
Proof.
  intros H e10 e11.
  destruct (@ledger_hash_properties H) as (_ & Hchange & Hsame).
  split.
  - apply Hchange; [intros a b E; exact E|reflexivity].
  - apply (Hsame [e10; e11] [e10; e11]); reflexivity.
Defined.

End LedgerProps.

(* --------------------------------------------------------------------- *)
(** ** The replay engine *)
(* --------------------------------------------------------------------- *)

Module ReplayProps.
Import ReplayEngine Spec.

Lemma replay_events_cons (self : t) (event : CostEvent.t)
    (rest : list CostEvent.t) (acc : float) :
  replay_events self (event :: rest) acc =
    match check_event self event with
    | Ok c => replay_events self rest (acc + c)%float
    | Raise err => Raise err
    end.
Proof.
  cbn [replay_events]. unfold check_event.
  destruct (pricing_models self !! CostEvent.pricing_version event) as [m|];
    [|reflexivity].
  destruct (Pricing.calculate_cost m (CostEvent.quantity event)) as [c|err];
    [|reflexivity].
  destruct (tolerance <? abs (c - CostEvent.total_cost event))%float; reflexivity.
Qed.

Lemma replay_events_ok_iff (self : t) (events : list CostEvent.t) :
  forall (acc total : float),
    replay_events self events acc = Ok total <->
    exists costs : list float,
      all_reconcile self events costs /\ total = fold_left PrimFloat.add costs acc.
Proof.
  unfold all_reconcile.
  induction events as [|e rest IH]; intros acc total.
  - cbn [replay_events]. split.
    + intros [= <-]. exists []. split; [constructor|reflexivity].
    + intros (costs & Hall & ->). inversion Hall. reflexivity.
  - rewrite replay_events_cons. split.
    + destruct (check_event self e) as [c|err] eqn:Ec; [|discriminate].
      intros Hrest. apply IH in Hrest as (costs & Hall & ->).
      exists (c :: costs). split; [now constructor|reflexivity].
    + intros (costs & Hall & ->). inversion Hall as [|e' c rest' costs' Hc Hall']; subst.
      rewrite Hc. apply IH. exists costs'. split; [exact Hall'|reflexivity].
Qed.

Lemma replay_events_first_failure (self : t) (passed : list CostEvent.t) :
  forall (costs : list float) (event : CostEvent.t) (rest : list CostEvent.t)
         (err : Error) (acc : float),
    all_reconcile self passed costs ->
    check_event self event = Raise err ->
    replay_events self (passed ++ event :: rest) acc = Raise err.
Proof.
  unfold all_reconcile.
  induction passed as [|e passed IH]; intros costs event rest err acc Hall Hev.
  - cbn [app]. rewrite replay_events_cons, Hev. reflexivity.
  - inversion Hall as [|e' c p' costs' Hc Hall']; subst.
    cbn [app]. rewrite replay_events_cons, Hc. eapply IH; eassumption.
Qed.

(** C4: [replay_execution] walks the events of the execution in ledger
    order.  It returns a total exactly when every one of them reconciles
    (its pricing version is in the catalog, its cost is recomputed, and the
    recomputed cost is not more than 1e-6 away from the recorded one), and
    the total is then the sum, from 0.0 and in order, of the recomputed
    costs.  At the first event that does not reconcile it raises:
    [UnknownPricingVersion] when the version is not a key of the catalog,
    [CostMismatch] when the recomputed cost is more than 1e-6 away, and the
    error of [calculate_cost] when the recomputation itself fails. *)
Theorem replay_execution_all_or_nothing (self : t) (execution_id : UUID)
    (ledger : CostLedger.t) :
  let events :=
    List.filter (fun e => (CostEvent.execution_id e =? execution_id)%Z)
      (CostLedger._events ledger) in
  (forall total : float,
     replay_execution self execution_id ledger = Ok total <->
     exists costs : list float,
       all_reconcile self events costs /\
       total = fold_left PrimFloat.add costs 0%float) /\
  (forall (passed : list CostEvent.t) (costs : list float)
          (event : CostEvent.t) (rest : list CostEvent.t),
     events = passed ++ event :: rest ->
     all_reconcile self passed costs ->
     (pricing_models self !! CostEvent.pricing_version event = None ->
      replay_execution self execution_id ledger
        = Raise (UnknownPricingVersion (CostEvent.pricing_version event))) /\
     (forall (m : Pricing.PricingModel) (c : float),
        pricing_models self !! CostEvent.pricing_version event = Some m ->
        Pricing.calculate_cost m (CostEvent.quantity event) = Ok c ->
        (1e-6 <? abs (c - CostEvent.total_cost event))%float = true ->
        replay_execution self execution_id ledger
          = Raise (CostMismatch (CostEvent.event_id event) c
                     (CostEvent.total_cost event))) /\
     (forall (m : Pricing.PricingModel) (err : Error),
        pricing_models self !! CostEvent.pricing_version event = Some m ->
        Pricing.calculate_cost m (CostEvent.quantity event) = Raise err ->
        replay_execution self execution_id ledger = Raise err)).
Proof.
  intros events. split.
  - intros total. apply replay_events_ok_iff.
  - intros passed costs event rest Hev Hall.
    unfold replay_execution, CostLedger.get_events_by_execution.
    fold events. rewrite Hev.
    split; [|split].
    + intros Hnone. apply (replay_events_first_failure self passed costs); [exact Hall|].
      unfold check_event. now rewrite Hnone.
    + intros m c Hm Hc Hgt.
      apply (replay_events_first_failure self passed costs); [exact Hall|].
      unfold check_event, tolerance. now rewrite Hm, Hc, Hgt.
    + intros m err Hm Hc.
      apply (replay_events_first_failure self passed costs); [exact Hall|].
      unfold check_event. now rewrite Hm, Hc.
Qed.

(** C4 on the catalog of the tests: the matching event replays to 45.0,
    the unknown version and the drifted event raise. *)
Lemma replay_execution_all_or_nothing_witness :
  replay_execution test_engine 7 (one_event_ledger matching_event) = Ok 45%float /\
  replay_execution test_engine 7 (one_event_ledger unknown_version_event)
    = Raise (UnknownPricingVersion "unknown:v1.0.0") /\
  replay_execution test_engine 7 (one_event_ledger drifted_event)
    = Raise (CostMismatch 3 45%float 30%float).
Proof.
  split; [|split].
  - apply (proj1 (replay_execution_all_or_nothing test_engine 7%Z
                    (one_event_ledger matching_event))).
    exists [45%float]. split; [|reflexivity].
    repeat constructor.
  - destruct (proj2 (replay_execution_all_or_nothing test_engine 7%Z
                       (one_event_ledger unknown_version_event))
                [] [] unknown_version_event [] eq_refl (List.Forall2_nil _))
      as (Hunknown & _ & _).
    apply Hunknown. reflexivity.
  - destruct (proj2 (replay_execution_all_or_nothing test_engine 7%Z
                       (one_event_ledger drifted_event))
                [] [] drifted_event [] eq_refl (List.Forall2_nil _))
      as (_ & Hmismatch & _).
    apply (Hmismatch gpt4_model 45%float); reflexivity.
Defined.

(** C5, as stated, on the unknown pricing version of the tests: the
    report is returned, not raised, with status ["error"]; the message is
    stored under the key ["error"], and the report has no key
    ["error_message"]. *)
Lemma error_report_key_is_error :
  exists report : pydict,
    compare_replay_with_original test_engine 7
      (one_event_ledger unknown_version_event) test_catalog = Ok report /\
    dict_get report "status" = Some (PyStr "error") /\
    dict_get report "error"
      = Some (PyError (UnknownPricingVersion "unknown:v1.0.0")) /\
    dict_get report "error_message" = None.
Proof. eexists. repeat split. Qed.

(** C5 (amended): [compare_replay_with_original] never raises.  When the
    replay returns [replayed_cost], the report is
    [{execution_id, original_cost, replayed_cost, delta, status}] with
    [original_cost] the sum of the recorded [total_cost] of the execution,
    [delta = replayed_cost - original_cost], and status ["match"] exactly
    when [|delta| < 1e-6], ["mismatch"] otherwise.  When the replay raises,
    whatever the error, the report is [{execution_id, error, status}] with
    the message of the error under ["error"] and status ["error"]. *)
Theorem compare_replay_report (self : t) (execution_id : UUID)
    (original_ledger : CostLedger.t)
    (current_pricing : gmap string Pricing.PricingModel) :
  exists report : pydict,
    compare_replay_with_original self execution_id original_ledger current_pricing
      = Ok report /\
    match replay_execution self execution_id original_ledger with
    | Ok replayed_cost =>
        let original_cost :=
          py_sum (map CostEvent.total_cost
                    (List.filter
                       (fun e => (CostEvent.execution_id e =? execution_id)%Z)
                       (CostLedger._events original_ledger))) in
        let delta := (replayed_cost - original_cost)%float in
        report = [ ("execution_id", PyUUID execution_id);
                   ("original_cost", PyFloat original_cost);
                   ("replayed_cost", PyFloat replayed_cost);
                   ("delta", PyFloat delta);
                   ("status", PyStr (if (abs delta <? 1e-6)%float
                                     then "match" else "mismatch")) ] /\
        (dict_get report "status" = Some (PyStr "match")
           <-> (abs delta <? 1e-6)%float = true) /\
        (dict_get report "status" = Some (PyStr "mismatch")
           <-> (abs delta <? 1e-6)%float = false)
    | Raise e =>
        report = [ ("execution_id", PyUUID execution_id);
                   ("error", PyError e);
                   ("status", PyStr "error") ]
    end.
Proof.
  unfold compare_replay_with_original, try_except.
  destruct (replay_execution self execution_id original_ledger) as [replayed|e].
  - eexists. split; [reflexivity|]. cbv zeta. split; [reflexivity|].
    unfold CostLedger.get_events_by_execution, tolerance.
    cbn [dict_get String.eqb Ascii.eqb Bool.eqb].
    destruct (abs _ <? 1e-6)%float; split; split; congruence.
  - eexists. split; reflexivity.
Qed.

(** C6: the [current_pricing] argument has no influence on the report:
    any two catalogs passed there give the same result, which is decided
    by the catalog given to the engine at construction (two engines that
    differ in that catalog do differ on the same call). *)
Theorem current_pricing_is_ignored :
  (forall (self : t) (execution_id : UUID) (ledger : CostLedger.t)
          (p1 p2 : gmap string Pricing.PricingModel),
     compare_replay_with_original self execution_id ledger p1
       = compare_replay_with_original self execution_id ledger p2) /\
  compare_replay_with_original (mk test_catalog) 7
      (one_event_ledger matching_event) test_catalog
    <> compare_replay_with_original (mk ∅) 7
         (one_event_ledger matching_event) test_catalog.
Proof.
  split.
  - intros self execution_id ledger p1 p2. reflexivity.
  - intros E.
    apply (f_equal (fun r => match r with
                             | Ok d => dict_get d "error"
                             | Raise _ => None
                             end)) in E.
    vm_compute in E. discriminate.
Qed.

End ReplayProps.

(* --------------------------------------------------------------------- *)
(** ** Cost events *)
(* --------------------------------------------------------------------- *)

Module CostEventProps.

(** C1: the constructor returns the event, every field as given, exactly
    when [total_cost == unit_cost * quantity] holds as a float comparison;
    otherwise it raises the validation error and no event is returned.
    No other field is looked at. *)
Theorem cost_event_construction
    (event_id : UUID) (timestamp : datetime) (execution_id : UUID)
    (component action : string) (unit_cost quantity total_cost : float)
    (currency cost_source pricing_version base_unit : string)
    (metadata : option (list (string * json))) :
  let built :=
    CostEvent.new event_id timestamp execution_id component action
      unit_cost quantity total_cost currency cost_source pricing_version
      base_unit metadata in
  let event :=
    CostEvent.mk event_id timestamp execution_id component action
      unit_cost quantity total_cost currency cost_source pricing_version
      base_unit metadata in
  (built = Ok event <-> (total_cost =? unit_cost * quantity)%float = true) /\
  (built = Raise ValidationError
     <-> (total_cost =? unit_cost * quantity)%float = false) /\
  (is_ok built = true <-> (total_cost =? unit_cost * quantity)%float = true) /\
  (forall e : CostEvent.t, built = Ok e -> e = event) /\
  (forall err : Error, built = Raise err -> err = ValidationError).
Proof.
  intros built event. subst built event.
  unfold CostEvent.new, CostEvent.post_init.
  cbn [CostEvent.total_cost CostEvent.unit_cost CostEvent.quantity].
  destruct (total_cost =? unit_cost * quantity)%float; cbn [negb is_ok].
  - repeat split; try congruence; try discriminate.
  - repeat split; try congruence; try discriminate.
Qed.

(** The two constructions of [test_cost_event_validation], and a NaN
    total, which no product equals. *)
Lemma cost_event_construction_examples :
  is_ok (CostEvent.new 1 (mkDatetime 0 0) 2 "model" "invoke"
           0.03 1000 30 "USD" "openai" "gpt-4:v1.0.0" "token" None) = true /\
  CostEvent.new 1 (mkDatetime 0 0) 2 "model" "invoke"
    0.03 1000 29 "USD" "openai" "gpt-4:v1.0.0" "token" None
    = Raise ValidationError /\
  CostEvent.new 1 (mkDatetime 0 0) 2 "" ""
    nan 1 nan "" "" "" "" None
    = Raise ValidationError.
Proof. repeat split. Qed.

End CostEventProps.

(* --------------------------------------------------------------------- *)
(** ** Sorting does not depend on the order of its input *)
(* --------------------------------------------------------------------- *)

Module SortProps.
Import InsertionSort.
Section Generic.
Context {A : Type} (lt : A -> A -> bool).
Hypothesis lt_trans :
  forall a b c, lt a b = true -> lt b c = true -> lt a c = true.
Hypothesis lt_asym : forall a b, lt a b = true -> lt b a = false.

Lemma insert_insert (x y : A) (l : list A) :
  lt x y = true ->
  insert lt x (insert lt y l) = insert lt y (insert lt x l).
Proof.
  intros Hxy. pose proof (lt_asym x y Hxy) as Hyx.
  induction l as [|u l IH]; cbn [insert].
  - now rewrite Hyx, Hxy.
  - destruct (lt u y) eqn:Huy; destruct (lt u x) eqn:Hux; cbn [insert];
      rewrite ?Huy, ?Hux, ?Hxy, ?Hyx; cbn [insert]; rewrite ?Huy, ?Hux.
    + now rewrite IH.
    + reflexivity.
    + now rewrite (lt_trans u x y Hux Hxy) in Huy.
    + reflexivity.
Qed.

Lemma pairwise_ordered_perm (l l' : list A) :
  Permutation l l' -> pairwise_ordered lt l -> pairwise_ordered lt l'.
Proof.
  unfold pairwise_ordered.
  induction 1 as [|x l l' Hp IH|x y l|l l' l'' _ IH1 _ IH2]; intros Hl.
  - exact Hl.
  - inversion Hl as [|a l0 Hx Hrest]; subst. constructor.
    + eapply Permutation_Forall; eassumption.
    + now apply IH.
  - inversion Hl as [|a l0 Hy Hrest]; subst.
    inversion Hrest as [|b l1 Hx Hl0]; subst.
    inversion Hy as [|c l2 Hyx Hyl]; subst.
    constructor; [constructor; [tauto|exact Hx]|].
    constructor; assumption.
  - auto.
Qed.

Lemma sort_perm (l l' : list A) :
  Permutation l l' -> pairwise_ordered lt l -> sort lt l = sort lt l'.
Proof.
  unfold sort.
  induction 1 as [|x l l' Hp IH|x y l|l l' l'' Hp1 IH1 Hp2 IH2]; intros Hl.
  - reflexivity.
  - inversion Hl; subst. cbn [fold_right]. now rewrite IH.
  - inversion Hl as [|a l0 Hy Hrest]; subst.
    inversion Hy as [|c l2 Hyx Hyl]; subst.
    cbn [fold_right]. destruct Hyx as [Hyx|Hxy].
    + now apply insert_insert.
    + symmetry. now apply insert_insert.
  - rewrite IH1 by exact Hl. apply IH2.
    eapply pairwise_ordered_perm; eassumption.
Qed.

End Generic.

Lemma insert_tier_eq (t : Pricing.PricingTier) (l : list Pricing.PricingTier) :
  Pricing.insert_tier t l = insert tier_lt t l.
Proof. induction l as [|u l IH]; cbn; [reflexivity|]. now rewrite IH. Qed.

Lemma sorted_eq (l : list Pricing.PricingTier) :
  Pricing.sorted l = sort tier_lt l.
Proof.
  unfold Pricing.sorted, sort. induction l as [|t l IH]; cbn; [reflexivity|].
  now rewrite IH, insert_tier_eq.
Qed.

Lemma insert_item_eq (kv : string * string) (l : list (string * string)) :
  Json.insert_item kv l = insert item_lt kv l.
Proof. induction l as [|u l IH]; cbn; [reflexivity|]. now rewrite IH. Qed.

Lemma sort_items_eq (l : list (string * string)) :
  Json.sort_items l = sort item_lt l.
Proof.
  unfold Json.sort_items, sort. induction l as [|t l IH]; cbn; [reflexivity|].
  now rewrite IH, insert_item_eq.
Qed.

End SortProps.

(* --------------------------------------------------------------------- *)
(** ** The order of binary64 and NaN *)
(* --------------------------------------------------------------------- *)

Module FloatOrder.

Lemma SFcompare_antisym (x y : spec_float) :
  SFcompare y x = option_map CompOpp (SFcompare x y).
Proof.
  destruct x as [[|]|[|]| |[|] m1 e1], y as [[|]|[|]| |[|] m2 e2];
    try reflexivity; cbn;
    change (Pos.compare_cont Eq m2 m1) with (m2 ?= m1)%positive;
    change (Pos.compare_cont Eq m1 m2) with (m1 ?= m2)%positive;
    rewrite (Z.compare_antisym e1 e2), (Pos.compare_antisym m1 m2);
    destruct (e1 ?= e2)%Z; cbn; try reflexivity;
    destruct (m1 ?= m2)%positive; reflexivity.
Qed.

Lemma ltb_asym (a b : float) : (a <? b)%float = true -> (b <? a)%float = false.
Proof.
  rewrite !ltb_spec. unfold SFltb. rewrite (SFcompare_antisym (Prim2SF a) (Prim2SF b)).
  destruct (SFcompare (Prim2SF a) (Prim2SF b)) as [[| |]|]; cbn; congruence.
Qed.

Lemma ltb_not_leb (a b : float) : (a <? b)%float = true -> (b <=? a)%float = false.
Proof.
  rewrite ltb_spec, leb_spec. unfold SFltb, SFleb. rewrite (SFcompare_antisym (Prim2SF a) (Prim2SF b)).
  destruct (SFcompare (Prim2SF a) (Prim2SF b)) as [[| |]|]; cbn; congruence.
Qed.

(** The order on exponent and mantissa of two finite numbers of one sign. *)
Lemma lex_lt_iff (e1 e2 : Z) (m1 m2 : positive) :
  match (e1 ?= e2)%Z with
  | Lt => Lt
  | Gt => Gt
  | Eq => Pos.compare_cont Eq m1 m2
  end = Lt
  <-> (e1 < e2)%Z \/ (e1 = e2 /\ (m1 < m2)%positive).
Proof.
  change (Pos.compare_cont Eq m1 m2) with (m1 ?= m2)%positive.
  destruct (Z.compare_spec e1 e2) as [He|He|He].
  - rewrite Pos.compare_lt_iff. split; [intros Hm; right; now split|].
    intros [Hlt|[_ Hm]]; [lia|exact Hm].
  - split; [intros _; now left|reflexivity].
  - split; [discriminate|]. intros [Hlt|[Heq _]]; lia.
Qed.

Lemma lex_gt_iff (e1 e2 : Z) (m1 m2 : positive) :
  match (e1 ?= e2)%Z with
  | Lt => Gt
  | Gt => Lt
  | Eq => CompOpp (Pos.compare_cont Eq m1 m2)
  end = Lt
  <-> (e2 < e1)%Z \/ (e1 = e2 /\ (m2 < m1)%positive).
Proof.
  change (Pos.compare_cont Eq m1 m2) with (m1 ?= m2)%positive.
  destruct (Z.compare_spec e1 e2) as [He|He|He].
  - destruct (Pos.compare_spec m1 m2) as [Hm|Hm|Hm]; cbn.
    + split; [discriminate|]. intros [Hlt|[_ Hlt]]; lia.
    + split; [discriminate|]. intros [Hlt|[_ Hlt]]; lia.
    + split; [intros _; right; now split|reflexivity].
  - split; [discriminate|]. intros [Hlt|[Heq _]]; lia.
  - split; [intros _; now left|reflexivity].
Qed.

Lemma SFltb_trans (x y z : spec_float) :
  SFltb x y = true -> SFltb y z = true -> SFltb x z = true.
Proof.
  unfold SFltb.
  destruct x as [[|]|[|]| |[|] m1 e1], y as [[|]|[|]| |[|] m2 e2],
           z as [[|]|[|]| |[|] m3 e3];
    cbn; try discriminate; try reflexivity.
  - intros H1 H2.
    destruct (match (e1 ?= e2)%Z with
              | Lt => Gt | Gt => Lt
              | Eq => CompOpp (Pos.compare_cont Eq m1 m2) end) eqn:E1;
      try discriminate.
    destruct (match (e2 ?= e3)%Z with
              | Lt => Gt | Gt => Lt
              | Eq => CompOpp (Pos.compare_cont Eq m2 m3) end) eqn:E2;
      try discriminate.
    apply lex_gt_iff in E1, E2.
    assert (E3 : (e3 < e1)%Z \/ (e1 = e3 /\ (m3 < m1)%positive)) by lia.
    apply lex_gt_iff in E3. now rewrite E3.
  - intros H1 H2.
    destruct (match (e1 ?= e2)%Z with
              | Lt => Lt | Gt => Gt
              | Eq => Pos.compare_cont Eq m1 m2 end) eqn:E1;
      try discriminate.
    destruct (match (e2 ?= e3)%Z with
              | Lt => Lt | Gt => Gt
              | Eq => Pos.compare_cont Eq m2 m3 end) eqn:E2;
      try discriminate.
    apply lex_lt_iff in E1, E2.
    assert (E3 : (e1 < e3)%Z \/ (e1 = e3 /\ (m1 < m3)%positive)) by lia.
    apply lex_lt_iff in E3. now rewrite E3.
Qed.

Lemma ltb_trans (a b c : float) :
  (a <? b)%float = true -> (b <? c)%float = true -> (a <? c)%float = true.
Proof. rewrite !ltb_spec. apply SFltb_trans. Qed.

(** NaN is the one float that is not equal to itself. *)
Lemma nan_spec (q : float) : is_nan q = true -> Prim2SF q = S754_nan.
Proof.
  unfold is_nan. rewrite FloatAxioms.eqb_spec. unfold SFeqb.
  destruct (Prim2SF q) as [[|]|[|]| |[|] m e]; cbn; try discriminate; try reflexivity;
    rewrite Z.compare_refl, Pos.compare_cont_refl; discriminate.
Qed.

Lemma not_nan_spec (q : float) : is_nan q = false -> Prim2SF q <> S754_nan.
Proof.
  unfold is_nan. rewrite FloatAxioms.eqb_spec. intros Hq E. rewrite E in Hq.
  discriminate.
Qed.

Lemma nan_ltb_l (q x : float) : is_nan q = true -> (q <? x)%float = false.
Proof. intros Hq. rewrite ltb_spec, (nan_spec q Hq). reflexivity. Qed.

Lemma nan_ltb_r (q x : float) : is_nan q = true -> (x <? q)%float = false.
Proof.
  intros Hq. rewrite ltb_spec, (nan_spec q Hq).
  destruct (Prim2SF x) as [[|]|[|]| |[|] m e]; reflexivity.
Qed.

Lemma nan_leb_l (q x : float) : is_nan q = true -> (q <=? x)%float = false.
Proof. intros Hq. rewrite leb_spec, (nan_spec q Hq). reflexivity. Qed.

Lemma nan_sub_l (q x : float) : is_nan q = true -> is_nan (q - x)%float = true.
Proof.
  intros Hq. unfold is_nan. rewrite FloatAxioms.eqb_spec, sub_spec, (nan_spec q Hq).
  reflexivity.
Qed.

End FloatOrder.

(* --------------------------------------------------------------------- *)
(** ** Pricing: listing order, NaN, zero and a bounded top tier *)
(* --------------------------------------------------------------------- *)

Module PricingMore.
Import Pricing.

Lemma tier_lt_trans (a b c : PricingTier) :
  tier_lt a b = true -> tier_lt b c = true -> tier_lt a c = true.
Proof. apply FloatOrder.ltb_trans. Qed.

Lemma tier_lt_asym (a b : PricingTier) :
  tier_lt a b = true -> tier_lt b a = false.
Proof. apply FloatOrder.ltb_asym. Qed.

(** X1: the order in which a model lists its tiers does not matter: two
    models with the same fixed fee whose tier lists are permutations of
    each other, the [min_quantity] of any two tiers comparing strictly one
    way or the other, return the same result for every quantity. *)
Theorem tier_listing_order_is_irrelevant (a b : PricingModel) (quantity : float) :
  Permutation (tiers a) (tiers b) ->
  fixed_fee a = fixed_fee b ->
  InsertionSort.pairwise_ordered tier_lt (tiers a) ->
  calculate_cost a quantity = calculate_cost b quantity.
Proof.
  intros Hp Hf Ho.
  assert (Hs : sorted (tiers a) = sorted (tiers b)).
  { rewrite !SortProps.sorted_eq.
    apply (SortProps.sort_perm tier_lt tier_lt_trans tier_lt_asym); assumption. }
  unfold calculate_cost, fixed_fee_or_zero. rewrite Hs, Hf.
  destruct (tiers a) as [|ta la], (tiers b) as [|tb lb]; try reflexivity.
  apply Permutation_nil in Hp. discriminate.
Qed.

(** X1 on the two-tier model of the tests and the same tiers listed top
    tier first. *)
Lemma tier_listing_order_is_irrelevant_witness :
  calculate_cost two_tier_model 1500%float
    = calculate_cost
        (mkModel 1%Z "v1.0.0" "tiered_model" "token" "token"
           [ mkTier 1000%float None 0.005%float;
             mkTier 0%float (Some 1000%float) 0.01%float ] None None)
        1500%float.
Proof.
  apply tier_listing_order_is_irrelevant.
  - apply perm_swap.
  - reflexivity.
  - repeat constructor.
Defined.

Lemma walk_tier_nan (q : float) (tier : PricingTier) (st : walk) :
  is_nan q = true -> walk_tier q tier st = st.
Proof.
  intros Hq. unfold walk_tier, py_min.
  rewrite (FloatOrder.nan_ltb_r q _ Hq).
  now rewrite (FloatOrder.nan_ltb_r _ 0%float (FloatOrder.nan_sub_l q _ Hq)).
Qed.

Lemma walk_tiers_nan (q : float) (ts : list PricingTier) :
  forall st, is_nan q = true -> walk_tiers q ts st = st.
Proof.
  induction ts as [|t ts IH]; intros st Hq; cbn [walk_tiers]; [reflexivity|].
  destruct (remaining_quantity st <=? 0)%float; [reflexivity|].
  rewrite (FloatOrder.nan_ltb_l q _ Hq), (walk_tier_nan q t st Hq). now apply IH.
Qed.

(** X2: a NaN quantity is never refused: on every model that has a tier,
    [calculate_cost] returns the fixed fee (0.0 without one); no tier is
    charged and no error is raised. *)
Theorem nan_quantity_costs_the_fixed_fee (self : PricingModel) (q : float) :
  is_nan q = true -> tiers self <> [] ->
  calculate_cost self q = Ok (fixed_fee_or_zero self).
Proof.
  intros Hq Hne. unfold calculate_cost.
  rewrite (FloatOrder.nan_ltb_l q _ Hq).
  destruct (tiers self) as [|t l] eqn:Et; [congruence|].
  destruct (sorted (t :: l)) as [|lowest rest] eqn:Es.
  - exfalso. now apply (PricingProps.sorted_not_nil (t :: l)).
  - rewrite (FloatOrder.nan_ltb_l q _ Hq), (walk_tiers_nan q _ _ Hq).
    cbn [remaining_quantity total_cost]. unfold epsilon.
    now rewrite (FloatOrder.nan_ltb_r q _ Hq).
Qed.

Lemma nan_quantity_costs_the_fixed_fee_witness :
  calculate_cost two_tier_model nan = Ok 0%float.
Proof.
  apply (nan_quantity_costs_the_fixed_fee two_tier_model nan);
    [reflexivity|discriminate].
Defined.



(** X4: one tier from 0 up to a bound [m > 0], no fixed fee: a quantity
    above the bound is charged [m * unit_cost] when it exceeds the bound by
    no more than 1e-9, and raises [UnsupportedQuantity] when it exceeds it
    by more. *)
Theorem bounded_tier_overflow (self : PricingModel) (m c q : float) :
  fixed_fee self = None ->
  tiers self = [mkTier 0%float (Some m) c] ->
  (0 <? m)%float = true -> (m <? q)%float = true ->
  calculate_cost self q =
    if (1e-9 <? q - m)%float then Raise UnsupportedQuantity
    else Ok (0 + m * c)%float.
Proof.
  intros Hfee Ht Hm Hq.
  pose proof (FloatOrder.ltb_trans _ _ _ Hm Hq) as H0q.
  unfold calculate_cost, fixed_fee_or_zero. rewrite Ht, Hfee.
  cbn [sorted fold_right insert_tier min_quantity].
  rewrite (FloatOrder.ltb_asym _ _ H0q).
  cbn [walk_tiers remaining_quantity min_quantity].
  rewrite (FloatOrder.ltb_not_leb _ _ H0q), (FloatOrder.ltb_asym _ _ H0q).
  unfold walk_tier.
  cbn [min_quantity max_quantity unit_cost processed_up_to
       total_cost remaining_quantity].
  replace (py_max 0 0) with 0%float by reflexivity.
  unfold py_min. rewrite Hq, FloatFacts.sub_zero_r, Hm.
  cbn [remaining_quantity total_cost]. reflexivity.
Qed.

Lemma bounded_tier_overflow_witness :
  calculate_cost
    (mkModel 1%Z "v1" "m" "token" "token"
       [ mkTier 0%float (Some 1000%float) 0.01%float ] None None)
    1500%float
  = Raise UnsupportedQuantity.
Proof.
  apply (bounded_tier_overflow _ 1000%float 0.01%float 1500%float);
    reflexivity.
Defined.

Lemma leb_of_ltb_false_pos (q m : float) :
  (0 <? q)%float = true -> (q <=? m)%float = true -> (m <? q)%float = false.
Proof.
  intros _ Hle. rewrite ltb_spec. rewrite leb_spec in Hle.
  unfold SFltb. unfold SFleb in Hle.
  rewrite (FloatOrder.SFcompare_antisym (Prim2SF q) (Prim2SF m)).
  destruct (SFcompare (Prim2SF q) (Prim2SF m)) as [[| |]|];
    cbn; congruence.
Qed.

Lemma finite_sub_diag_nonpos (q : float) :
  is_finite q = true -> (q - q <=? 0)%float = true.
Proof.
  intros Hq. rewrite leb_spec, sub_spec, FloatFacts.spec_zero.
  destruct (FloatFacts.finite_cases q Hq) as [[s E]|(s & m & e & E)]; rewrite E.
  - destruct s; reflexivity.
  - unfold SF64sub, SFsub. rewrite Z.sub_diag. reflexivity.
Qed.

(** X18: progressive pricing on two tiers.  For a model without fixed
    fee whose tiers are [0, m) at [c1] and [m, unbounded) at [c2], with
    [m > 0]: a finite quantity [0 < q <= m] costs [q * c1] (added to 0.0),
    and a quantity above [m] costs [m * c1] for the first tier plus
    [(q - m) * c2] for the part above the boundary. *)
Theorem two_tier_progressive_cost (self : PricingModel) (m c1 c2 q : float) :
  fixed_fee self = None ->
  tiers self = [mkTier 0%float (Some m) c1; mkTier m None c2] ->
  (0 <? m)%float = true ->
  ((0 <? q)%float = true -> (q <=? m)%float = true -> is_finite q = true ->
   calculate_cost self q = Ok (0 + q * c1)%float) /\
  ((m <? q)%float = true -> (0 <? q - m)%float = true ->
   calculate_cost self q = Ok (0 + m * c1 + (q - m) * c2)%float).
Proof.
  intros Hfee Ht Hm.
  assert (Hsorted : sorted (tiers self)
                    = [mkTier 0%float (Some m) c1; mkTier m None c2]).
  { rewrite Ht. cbn [sorted fold_right insert_tier min_quantity].
    now rewrite (FloatOrder.ltb_asym _ _ Hm). }
  unfold calculate_cost, fixed_fee_or_zero. rewrite Hsorted, Ht, Hfee.
  cbn [min_quantity]. split.
  - intros H0q Hle Hfin.
    assert (Hstep : walk_tier q (mkTier 0%float (Some m) c1)
                      (mkWalk 0%float q 0%float)
                    = mkWalk (0 + q * c1)%float (q - q)%float q).
    { unfold walk_tier.
      cbn [min_quantity max_quantity unit_cost processed_up_to
           total_cost remaining_quantity].
      replace (py_max 0 0) with 0%float by reflexivity.
      unfold py_min. rewrite (leb_of_ltb_false_pos q m H0q Hle).
      now rewrite FloatFacts.sub_zero_r, H0q. }
    rewrite (FloatOrder.ltb_asym _ _ H0q).
    cbn [walk_tiers remaining_quantity min_quantity].
    rewrite (FloatOrder.ltb_not_leb _ _ H0q), (FloatOrder.ltb_asym _ _ H0q).
    rewrite Hstep. cbn [remaining_quantity].
    rewrite (finite_sub_diag_nonpos q Hfin).
    cbn [remaining_quantity total_cost]. unfold epsilon.
    now rewrite FloatFacts.sub_diag_small.
  - intros Hq Hpos.
    pose proof (FloatOrder.ltb_trans _ _ _ Hm Hq) as H0q.
    assert (Hstep1 : walk_tier q (mkTier 0%float (Some m) c1)
                       (mkWalk 0%float q 0%float)
                     = mkWalk (0 + m * c1)%float (q - m)%float m).
    { unfold walk_tier.
      cbn [min_quantity max_quantity unit_cost processed_up_to
           total_cost remaining_quantity].
      replace (py_max 0 0) with 0%float by reflexivity.
      unfold py_min. now rewrite Hq, FloatFacts.sub_zero_r, Hm. }
    assert (Hstep2 : walk_tier q (mkTier m None c2)
                       (mkWalk (0 + m * c1)%float (q - m)%float m)
                     = mkWalk (0 + m * c1 + (q - m) * c2)%float
                         (q - m - (q - m))%float q).
    { unfold walk_tier.
      cbn [min_quantity max_quantity unit_cost processed_up_to
           total_cost remaining_quantity].
      assert (Hmm : py_max m m = m).
      { unfold py_max. destruct (m <? m)%float; reflexivity. }
      rewrite Hmm. unfold py_min.
      now rewrite FloatFacts.infinity_not_below, Hpos. }
    rewrite (FloatOrder.ltb_asym _ _ H0q).
    cbn [walk_tiers remaining_quantity min_quantity].
    rewrite (FloatOrder.ltb_not_leb _ _ H0q), (FloatOrder.ltb_asym _ _ H0q).
    rewrite Hstep1. cbn [remaining_quantity].
    rewrite (FloatOrder.ltb_not_leb _ _ Hpos), (FloatOrder.ltb_asym _ _ Hq).
    rewrite Hstep2. cbn [remaining_quantity total_cost]. unfold epsilon.
    now rewrite FloatFacts.sub_diag_small.
Qed.

(** X18 on the model of the tests: 500 units inside the first tier, 1500
    across the boundary. *)
Lemma two_tier_progressive_cost_witness :
  calculate_cost two_tier_model 500%float = Ok (0 + 500 * 0.01)%float /\
  calculate_cost two_tier_model 1500%float
    = Ok (0 + 1000 * 0.01 + (1500 - 1000) * 0.005)%float.
Proof.
  destruct (two_tier_progressive_cost two_tier_model
              1000%float 0.01%float 0.005%float 500%float)
    as [Hin _]; try reflexivity.
  destruct (two_tier_progressive_cost two_tier_model
              1000%float 0.01%float 0.005%float 1500%float)
    as [_ Hover]; try reflexivity.
  split; [apply Hin|apply Hover]; reflexivity.
Defined.

End PricingMore.

(* --------------------------------------------------------------------- *)
(** ** Cost events never hold a NaN cost *)
(* --------------------------------------------------------------------- *)

Module CostEventMore.

Lemma eqb_true_not_nan (x y : float) :
  (x =? y)%float = true -> is_nan x = false /\ is_nan y = false.
Proof.
  unfold is_nan. rewrite !FloatAxioms.eqb_spec. unfold SFeqb.
  destruct (Prim2SF x) as [[|]|[|]| |[|] m1 e1], (Prim2SF y) as [[|]|[|]| |[|] m2 e2];
    cbn; try discriminate; intros _; try (split; reflexivity);
    rewrite ?Z.compare_refl, ?Pos.compare_cont_refl; split; reflexivity.
Qed.

Lemma mul_not_nan (u q : float) :
  is_nan (u * q)%float = false -> is_nan u = false /\ is_nan q = false.
Proof.
  intros Hn.
  destruct (is_nan u) eqn:Hu.
  - apply FloatOrder.not_nan_spec in Hn. exfalso. apply Hn.
    rewrite mul_spec, (FloatOrder.nan_spec u Hu). reflexivity.
  - split; [reflexivity|]. destruct (is_nan q) eqn:Hq; [|reflexivity].
    apply FloatOrder.not_nan_spec in Hn. exfalso. apply Hn.
    rewrite mul_spec, (FloatOrder.nan_spec q Hq).
    destruct (Prim2SF u) as [[|]|[|]| |[|] m e]; reflexivity.
Qed.

(** X5: an event that was constructed holds no NaN in its cost triple:
    when the constructor returns, [unit_cost], [quantity] and [total_cost]
    are all numbers. *)
Theorem constructed_event_has_no_nan
    (event_id : UUID) (timestamp : datetime) (execution_id : UUID)
    (component action : string) (unit_cost quantity total_cost : float)
    (currency cost_source pricing_version base_unit : string)
    (metadata : option (list (string * json))) (event : CostEvent.t) :
  CostEvent.new event_id timestamp execution_id component action
    unit_cost quantity total_cost currency cost_source pricing_version
    base_unit metadata = Ok event ->
  is_nan (CostEvent.unit_cost event) = false /\
  is_nan (CostEvent.quantity event) = false /\
  is_nan (CostEvent.total_cost event) = false.
Proof.
  unfold CostEvent.new, CostEvent.post_init.
  cbn [CostEvent.total_cost CostEvent.unit_cost CostEvent.quantity].
  destruct (total_cost =? unit_cost * quantity)%float eqn:E; cbn [negb];
    [|discriminate].
  intros [= <-]. cbn [CostEvent.total_cost CostEvent.unit_cost CostEvent.quantity].
  destruct (eqb_true_not_nan _ _ E) as [Ht Hp].
  destruct (mul_not_nan _ _ Hp) as [Hu Hq]. auto.
Qed.

(** X5 on the event of [test_cost_event_creation]. *)
Lemma constructed_event_has_no_nan_witness :
  let event :=
    CostEvent.mk 1%Z (mkDatetime 0 0) 2%Z "model" "invoke"
      0.03%float 1000%float 30%float "USD" "openai" "gpt-4:v1.0.0" "token"
      None in
  is_nan (CostEvent.unit_cost event) = false /\
  is_nan (CostEvent.quantity event) = false /\
  is_nan (CostEvent.total_cost event) = false.
Proof.
  intros event.
  apply (constructed_event_has_no_nan 1%Z (mkDatetime 0 0) 2%Z "model" "invoke"
           0.03%float 1000%float 30%float "USD" "openai" "gpt-4:v1.0.0" "token"
           None event).
  reflexivity.
Defined.

End CostEventMore.

(* --------------------------------------------------------------------- *)
(** ** The ledger: growth, tamper evidence, filters *)
(* --------------------------------------------------------------------- *)

Module LedgerMore.
Import CostLedger Spec.
Section WithRuntime.
Context `{PyRuntime}.

Lemma after_appends (c : call) (self : t) :
  exists (es : list CostEvent.t) (hs : list string),
    _events (after c self) = _events self ++ es /\
    _hashes (after c self) = _hashes self ++ hs.
Proof.
  destruct c; cbn [after]; try (exists [], []; now rewrite !app_nil_r).
  rewrite LedgerProps.add_event_eq.
  destruct (rejects self event); cbn [snd _events _hashes].
  - exists [], []. now rewrite !app_nil_r.
  - eexists _, _. split; reflexivity.
Qed.

Lemma run_appends (calls : list call) (self : t) :
  exists (es : list CostEvent.t) (hs : list string),
    _events (run calls self) = _events self ++ es /\
    _hashes (run calls self) = _hashes self ++ hs.
Proof.
  unfold run. revert self.
  induction calls as [|c calls IH]; intros self; cbn [fold_left].
  - exists [], []. now rewrite !app_nil_r.
  - destruct (IH (after c self)) as (es2 & hs2 & He2 & Hh2).
    destruct (after_appends c self) as (es1 & hs1 & He1 & Hh1).
    exists (es1 ++ es2), (hs1 ++ hs2).
    rewrite He2, Hh2, He1, Hh1, !app_assoc. now split.
Qed.

(** X6: the ledger is append-only: whatever calls are made, returning or
    raising, every event and every hash stays at its index; no entry is
    removed, replaced or reordered, and both lists can only grow. *)
Theorem ledger_is_append_only (calls : list call) (self : t) :
  (forall (i : nat) (e : CostEvent.t),
     _events self !! i = Some e -> _events (run calls self) !! i = Some e) /\
  (forall (i : nat) (h : string),
     _hashes self !! i = Some h -> _hashes (run calls self) !! i = Some h) /\
  length (_events self) <= length (_events (run calls self)) /\
  length (_hashes self) <= length (_hashes (run calls self)).
Proof.
  destruct (run_appends calls self) as (es & hs & -> & ->).
  rewrite !length_app. repeat split; try lia.
  - intros i e Hi. now apply lookup_app_l_Some.
  - intros i h Hi. now apply lookup_app_l_Some.
Qed.

Lemma serialize_app_longer (l ext : list CostEvent.t) :
  ext <> [] ->
  String.length (serialize l) < String.length (serialize (l ++ ext)).
Proof.
  induction ext as [|x ext IH] using rev_ind; [congruence|]. intros _.
  rewrite app_assoc.
  pose proof (LedgerProps.serialize_snoc_longer (l ++ ext) x) as Hx.
  destruct ext as [|y ext'].
  - now rewrite app_nil_r in *.
  - assert (Hne : y :: ext' <> []) by discriminate.
    specialize (IH Hne). lia.
Qed.


End WithRuntime.


Section Appending.
Context `{PyRuntime}.




(** X9: after a successful [add_event], each filter returns what it
    returned before, followed by the new event when that event matches;
    the result for any other execution or component is unchanged. *)
Theorem filters_after_add_event (self : t) (event : CostEvent.t)
    (execution_id : UUID) (component : string) :
  fst (add_event event self) = Ok tt ->
  get_events_by_execution (snd (add_event event self)) execution_id
    = get_events_by_execution self execution_id
        ++ (if (CostEvent.execution_id event =? execution_id)%Z
            then [event] else []) /\
  get_events_by_component (snd (add_event event self)) component
    = get_events_by_component self component
        ++ (if String.eqb (CostEvent.component event) component
            then [event] else []).
Proof.
  rewrite LedgerProps.add_event_eq.
  destruct (rejects self event); [discriminate|]. intros _.
  unfold get_events_by_execution, get_events_by_component.
  cbn [snd _events]. rewrite !List.filter_app. cbn [List.filter].
  split; [destruct (_ =? _)%Z|destruct (String.eqb _ _)]; reflexivity.
Qed.

End Appending.


(** X9 on a one-event ledger and an event of another execution. *)
Lemma filters_after_add_event_witness :
  let H := plain_runtime in
  let other :=
    CostEvent.mk 9%Z (mkDatetime 11 0) 8%Z "tool" "call" 1%float 1%float 1%float
      "USD" "x" "v" "u" None in
  get_events_by_execution
    (snd (add_event other (one_event_ledger matching_event))) 7%Z
    = [matching_event] /\
  get_events_by_component
    (snd (add_event other (one_event_ledger matching_event))) "tool"
    = [other].
Proof.
  intros H other.
  apply (filters_after_add_event (H := H) (one_event_ledger matching_event)
           other 7%Z "tool").
  reflexivity.
Defined.

End LedgerMore.

(* --------------------------------------------------------------------- *)
(** ** Replay: executions without events, isolation, the catalog *)
(* --------------------------------------------------------------------- *)

Module ReplayMore.
Import ReplayEngine Spec.

Lemma filter_none (execution_id : UUID) (events : list CostEvent.t) :
  Forall (fun e => CostEvent.execution_id e <> execution_id) events ->
  List.filter (fun e => (CostEvent.execution_id e =? execution_id)%Z) events = [].
Proof.
  induction 1 as [|e l He _ IH]; [reflexivity|]. cbn [List.filter].
  apply Z.eqb_neq in He. now rewrite He.
Qed.

(** X10: an execution that has no event in the ledger replays to 0.0
    without consulting the catalog, and the comparison reports status
    ["match"] with a replayed cost and a delta of 0.0: an execution id
    that the ledger has never seen is not an error. *)
Theorem unknown_execution_reports_match (self : t) (execution_id : UUID)
    (ledger : CostLedger.t)
    (current_pricing : gmap string Pricing.PricingModel) :
  Forall (fun e => CostEvent.execution_id e <> execution_id)
    (CostLedger._events ledger) ->
  replay_execution self execution_id ledger = Ok 0%float /\
  exists report : pydict,
    compare_replay_with_original self execution_id ledger current_pricing
      = Ok report /\
    dict_get report "status" = Some (PyStr "match") /\
    dict_get report "replayed_cost" = Some (PyFloat 0) /\
    dict_get report "delta" = Some (PyFloat 0).
Proof.
  intros Hnone.
  unfold compare_replay_with_original, replay_execution,
    CostLedger.get_events_by_execution.
  rewrite (filter_none _ _ Hnone). cbn [replay_events map try_except].
  split; [reflexivity|]. eexists. split; [reflexivity|]. repeat split.
Qed.

Lemma unknown_execution_reports_match_witness :
  replay_execution test_engine 99 (one_event_ledger matching_event) = Ok 0%float /\
  exists report : pydict,
    compare_replay_with_original test_engine 99
      (one_event_ledger matching_event) ∅ = Ok report /\
    dict_get report "status" = Some (PyStr "match") /\
    dict_get report "replayed_cost" = Some (PyFloat 0) /\
    dict_get report "delta" = Some (PyFloat 0).
Proof.
  apply unknown_execution_reports_match.
  repeat constructor. discriminate.
Defined.

Lemma replay_events_catalogs (c1 c2 : gmap string Pricing.PricingModel)
    (events : list CostEvent.t) :
  forall acc : float,
    (forall e, In e events ->
       c1 !! CostEvent.pricing_version e = c2 !! CostEvent.pricing_version e) ->
    replay_events (mk c1) events acc = replay_events (mk c2) events acc.
Proof.
  induction events as [|e rest IH]; intros acc Hagree; [reflexivity|].
  cbn [replay_events pricing_models].
  rewrite (Hagree e (or_introl eq_refl)).
  destruct (c2 !! CostEvent.pricing_version e) as [m|]; [|reflexivity].
  destruct (Pricing.calculate_cost m (CostEvent.quantity e)) as [c|err];
    [|reflexivity].
  destruct (tolerance <? abs (c - CostEvent.total_cost e))%float; [reflexivity|].
  apply IH. intros e' He'. apply Hagree. now right.
Qed.

(** X11: a replay reads the catalog only at the pricing versions that the
    events of the execution name: two engines whose catalogs agree on
    those keys return the same result, so adding, changing or removing
    any other entry of the catalog changes nothing. *)
Theorem replay_reads_only_referenced_versions
    (c1 c2 : gmap string Pricing.PricingModel) (execution_id : UUID)
    (ledger : CostLedger.t) :
  (forall e : CostEvent.t,
     In e (CostLedger.get_events_by_execution ledger execution_id) ->
     c1 !! CostEvent.pricing_version e = c2 !! CostEvent.pricing_version e) ->
  replay_execution (mk c1) execution_id ledger
    = replay_execution (mk c2) execution_id ledger.
Proof. intros Hagree. now apply replay_events_catalogs. Qed.

(** X11 on the catalog of the tests and the same catalog with one more
    entry. *)
Lemma replay_reads_only_referenced_versions_witness :
  replay_execution (mk test_catalog) 7 (one_event_ledger matching_event)
    = replay_execution
        (mk (<[ "external_api:v1.0.0" := Pricing.no_tier_model (Some 0.5%float) ]>
               test_catalog))
        7 (one_event_ledger matching_event).
Proof.
  apply replay_reads_only_referenced_versions.
  intros e [<-|[]]. reflexivity.
Defined.

Section Isolation.
Context `{PyRuntime}.

(** X12: executions are isolated: calling [add_event] with an event of
    another execution, whether it is appended or refused, changes neither
    the events of this execution, nor its [replay_cost], nor the result of
    [replay_execution], nor the report of [compare_replay_with_original]. *)
Theorem other_executions_do_not_interfere (self : t) (execution_id : UUID)
    (ledger : CostLedger.t) (event : CostEvent.t)
    (current_pricing : gmap string Pricing.PricingModel) :
  CostEvent.execution_id event <> execution_id ->
  let ledger' := snd (CostLedger.add_event event ledger) in
  CostLedger.get_events_by_execution ledger' execution_id
    = CostLedger.get_events_by_execution ledger execution_id /\
  CostLedger.replay_cost ledger' execution_id
    = CostLedger.replay_cost ledger execution_id /\
  replay_execution self execution_id ledger'
    = replay_execution self execution_id ledger /\
  compare_replay_with_original self execution_id ledger' current_pricing
    = compare_replay_with_original self execution_id ledger current_pricing.
Proof.
  intros Hother ledger'.
  assert (Hev : CostLedger.get_events_by_execution ledger' execution_id
                = CostLedger.get_events_by_execution ledger execution_id).
  { subst ledger'. rewrite LedgerProps.add_event_eq.
    destruct (rejects ledger event); [reflexivity|].
    unfold CostLedger.get_events_by_execution. cbn [snd CostLedger._events].
    rewrite List.filter_app. cbn [List.filter].
    apply Z.eqb_neq in Hother. rewrite Hother. apply app_nil_r. }
  unfold compare_replay_with_original, replay_execution, CostLedger.replay_cost.
  rewrite Hev. repeat split.
Qed.

End Isolation.

Lemma other_executions_do_not_interfere_witness :
  let H := plain_runtime in
  let other :=
    CostEvent.mk 9%Z (mkDatetime 11 0) 8%Z "tool" "call" 1%float 1%float 1%float
      "USD" "x" "unknown:v0" "u" None in
  replay_execution test_engine 7
    (snd (CostLedger.add_event other (one_event_ledger matching_event)))
  = replay_execution test_engine 7 (one_event_ledger matching_event).
Proof.
  intros H other.
  apply (other_executions_do_not_interfere (H := H) test_engine 7%Z
           (one_event_ledger matching_event) other ∅).
  discriminate.
Defined.

End ReplayMore.

(* --------------------------------------------------------------------- *)
(** ** Serialisation: the order of dictionary items *)
(* --------------------------------------------------------------------- *)

Module JsonMore.

Lemma ascii_compare_lt_trans (a b c : ascii) :
  Ascii.compare a b = Lt -> Ascii.compare b c = Lt -> Ascii.compare a c = Lt.
Proof. unfold Ascii.compare. rewrite !N.compare_lt_iff. lia. Qed.

Lemma string_compare_lt_trans (s1 : string) :
  forall s2 s3 : string,
    String.compare s1 s2 = Lt -> String.compare s2 s3 = Lt ->
    String.compare s1 s3 = Lt.
Proof.
  induction s1 as [|a s1 IH]; intros [|b s2] [|c s3]; cbn;
    try discriminate; try reflexivity.
  destruct (Ascii.compare a b) eqn:Eab; try discriminate;
    destruct (Ascii.compare b c) eqn:Ebc; try discriminate; intros H1 H2.
  - apply Ascii.compare_eq_iff in Eab, Ebc. subst.
    replace (Ascii.compare c c) with Eq
      by (symmetry; unfold Ascii.compare; apply N.compare_refl).
    now apply (IH s2).
  - apply Ascii.compare_eq_iff in Eab. subst. now rewrite Ebc.
  - apply Ascii.compare_eq_iff in Ebc. subst. now rewrite Eab.
  - now rewrite (ascii_compare_lt_trans a b c Eab Ebc).
Qed.

Lemma item_lt_trans (a b c : string * string) :
  item_lt a b = true -> item_lt b c = true -> item_lt a c = true.
Proof.
  unfold item_lt, String.ltb.
  destruct (String.compare (fst a) (fst b)) eqn:E1; try discriminate.
  destruct (String.compare (fst b) (fst c)) eqn:E2; try discriminate.
  now rewrite (string_compare_lt_trans _ _ _ E1 E2).
Qed.

Lemma item_lt_asym (a b : string * string) :
  item_lt a b = true -> item_lt b a = false.
Proof.
  unfold item_lt, String.ltb. rewrite (String.compare_antisym (fst b) (fst a)).
  destruct (String.compare (fst a) (fst b)); cbn; congruence.
Qed.

Lemma item_lt_total (a b : string * string) :
  fst a <> fst b -> item_lt a b = true \/ item_lt b a = true.
Proof.
  intros Hne. unfold item_lt, String.ltb.
  rewrite (String.compare_antisym (fst b) (fst a)).
  destruct (String.compare (fst a) (fst b)) eqn:E; cbn; auto.
  apply String.compare_eq_iff in E. contradiction.
Qed.

Lemma distinct_keys_ordered (l : list (string * string)) :
  NoDup (map fst l) -> InsertionSort.pairwise_ordered item_lt l.
Proof.
  unfold InsertionSort.pairwise_ordered.
  induction l as [|kv l IH]; intros Hnd; [constructor|].
  cbn [map] in Hnd. apply NoDup_cons in Hnd as [Hnotin Hnd].
  constructor; [|now apply IH].
  apply List.Forall_forall. intros kv' Hin. apply item_lt_total.
  intros E. apply Hnotin. rewrite E. apply list_elem_of_In, in_map, Hin.
Qed.

Section WithRuntime.
Context `{PyRuntime}.

(** X13: with [sort_keys=True] the text of a dictionary does not depend
    on the order in which its items were inserted: two item lists with
    distinct keys that are permutations of each other serialise to the
    same string. *)
Theorem dumps_ignores_item_order (items1 items2 : list (string * json)) :
  Permutation items1 items2 ->
  NoDup (map fst items1) ->
  Json.dumps (JDict items1) = Json.dumps (JDict items2).
Proof.
  intros Hp Hnd.
  set (rendered := fun kv : string * json => (fst kv, Json.dumps (snd kv))).
  assert (Hs : Json.sort_items (map rendered items1)
               = Json.sort_items (map rendered items2)).
  { rewrite !SortProps.sort_items_eq.
    apply (SortProps.sort_perm item_lt item_lt_trans item_lt_asym).
    - now apply Permutation_map.
    - apply distinct_keys_ordered. now rewrite map_map. }
  change (Json.dumps (JDict items1))
    with ("{" ++ String.concat ", "
                   (map Json.render_item (Json.sort_items (map rendered items1)))
              ++ "}")%string.
  change (Json.dumps (JDict items2))
    with ("{" ++ String.concat ", "
                   (map Json.render_item (Json.sort_items (map rendered items2)))
              ++ "}")%string.
  now rewrite Hs.
Qed.

End WithRuntime.

Lemma dumps_ignores_item_order_witness :
  let H := Spec.plain_runtime in
  Json.dumps (JDict [ ("model", JStr "gpt-4"); ("attempt", JInt 2) ])
    = Json.dumps (JDict [ ("attempt", JInt 2); ("model", JStr "gpt-4") ]).
Proof.
  intros H. apply (dumps_ignores_item_order (H := H)).
  - apply perm_swap.
  - apply (bool_decide_unpack _). reflexivity.
Defined.

End JsonMore.

(* --------------------------------------------------------------------- *)
(** ** The transcript adapter *)
(* --------------------------------------------------------------------- *)

Module AdapterProps.
Import ExecutionTranscriptAdapter.
Section WithUUID.
Variable uuid_of_string : string -> option UUID.

Abbreviation convert := (to_cost_event uuid_of_string).

Lemma collect_cons (data : transcript) (inv : invocation)
    (rest : list invocation) (acc : list CostEvent.t) :
  collect uuid_of_string data (inv :: rest) acc =
    match convert data inv with
    | Returns e => collect uuid_of_string data rest (acc ++ [e])
    | Raises x => Raises x
    end.
Proof. reflexivity. Qed.

Lemma collect_returns_iff (data : transcript) (invs : list invocation) :
  forall acc events : list CostEvent.t,
    collect uuid_of_string data invs acc = Returns events <->
    exists converted : list CostEvent.t,
      Forall2 (fun inv e => convert data inv = Returns e) invs converted /\
      events = acc ++ converted.
Proof.
  induction invs as [|inv rest IH]; intros acc events.
  - cbn [collect]. split.
    + intros [= <-]. exists []. split; [constructor|now rewrite app_nil_r].
    + intros (conv & Hall & ->). inversion Hall. now rewrite app_nil_r.
  - rewrite collect_cons. split.
    + destruct (convert data inv) as [e|x] eqn:Ee; [|discriminate].
      intros Hrest. apply IH in Hrest as (conv & Hall & ->).
      exists (e :: conv). split; [now constructor|now rewrite <- app_assoc].
    + intros (conv & Hall & ->).
      inversion Hall as [|i e r conv' He Hall']; subst.
      rewrite He. apply IH. exists conv'. split; [exact Hall'|].
      now rewrite <- app_assoc.
Qed.

Lemma collect_first_failure (data : transcript) (passed : list invocation) :
  forall (converted : list CostEvent.t) (inv : invocation)
         (rest : list invocation) (x : exn) (acc : list CostEvent.t),
    Forall2 (fun inv e => convert data inv = Returns e) passed converted ->
    convert data inv = Raises x ->
    collect uuid_of_string data (passed ++ inv :: rest) acc = Raises x.
Proof.
  induction passed as [|i passed IH]; intros conv inv rest x acc Hall Hx.
  - cbn [app]. now rewrite collect_cons, Hx.
  - inversion Hall as [|i' e p' conv' He Hall']; subst.
    cbn [app]. rewrite collect_cons, He. eapply IH; eassumption.
Qed.

(** X14: [to_cost_events] is all-or-nothing and order-preserving: it
    returns a list exactly when every invocation of the transcript
    converts, the list then holding one event per invocation in the
    order of the transcript; the first invocation that does not convert
    decides the exception, and no partial list is returned.  A transcript
    without the key [model_invocations] gives the empty list, also when
    it has no [execution_id]. *)
Theorem to_cost_events_all_or_nothing (data : transcript) :
  let invocations := get_default (model_invocations data) [] in
  (forall events : list CostEvent.t,
     to_cost_events uuid_of_string data = Returns events <->
     Forall2 (fun inv e => convert data inv = Returns e) invocations events) /\
  (forall (passed : list invocation) (converted : list CostEvent.t)
          (inv : invocation) (rest : list invocation) (x : exn),
     invocations = passed ++ inv :: rest ->
     Forall2 (fun inv e => convert data inv = Returns e) passed converted ->
     convert data inv = Raises x ->
     to_cost_events uuid_of_string data = Raises x) /\
  (model_invocations data = None ->
     to_cost_events uuid_of_string data = Returns []).
Proof.
  intros invocations. unfold to_cost_events. fold invocations.
  split; [|split].
  - intros events. rewrite collect_returns_iff. split.
    + now intros (conv & Hall & ->).
    + intros Hall. now exists events.
  - intros passed conv inv rest x -> Hall Hx.
    eapply collect_first_failure; eassumption.
  - intros Hnone. subst invocations. now rewrite Hnone.
Qed.

Lemma convert_fields (data : transcript) (inv : invocation) (e : CostEvent.t) :
  convert data inv = Returns e ->
  CostEvent.component e = "model" /\
  CostEvent.action e = "invoke" /\
  CostEvent.metadata e = None /\
  CostEvent.base_unit e = get_default (base_unit inv) "token" /\
  (CostEvent.total_cost e =? CostEvent.unit_cost e * CostEvent.quantity e)%float
    = true /\
  exists text : string,
    execution_id data = Some text /\
    uuid_of_string text = Some (CostEvent.execution_id e).
Proof.
  unfold to_cost_event, and_then, subscript, parse_uuid.
  destruct (event_id inv) as [eid|]; [|discriminate].
  destruct (uuid_of_string eid) as [u|]; [|discriminate].
  destruct (timestamp inv) as [ts|]; [|discriminate].
  destruct (execution_id data) as [xid|]; [|discriminate].
  destruct (uuid_of_string xid) as [x|] eqn:Ex; [|discriminate].
  destruct (unit_cost inv) as [uc|]; [|discriminate].
  destruct (quantity inv) as [q|]; [|discriminate].
  destruct (total_cost inv) as [tc|]; [|discriminate].
  destruct (currency inv) as [cur|]; [|discriminate].
  destruct (cost_source inv) as [src|]; [|discriminate].
  destruct (pricing_version inv) as [pv|]; [|discriminate].
  unfold CostEvent.new, CostEvent.post_init.
  cbn [CostEvent.total_cost CostEvent.unit_cost CostEvent.quantity].
  destruct (tc =? uc * q)%float eqn:Ec; cbn [negb]; [|discriminate].
  intros [= <-]. cbn. repeat split; try assumption. now exists xid.
Qed.

(** X15: every event that [to_cost_events] returns is a model invocation
    of the transcript's execution with a consistent cost: its component is
    ["model"], its action ["invoke"], it has no metadata, its
    [total_cost] equals [unit_cost * quantity], and all the events carry
    the same [execution_id], the one the transcript names. *)
Theorem to_cost_events_output (data : transcript) (events : list CostEvent.t) :
  to_cost_events uuid_of_string data = Returns events ->
  length events = length (get_default (model_invocations data) []) /\
  Forall (fun e =>
            CostEvent.component e = "model" /\
            CostEvent.action e = "invoke" /\
            CostEvent.metadata e = None /\
            (CostEvent.total_cost e
               =? CostEvent.unit_cost e * CostEvent.quantity e)%float = true /\
            exists text : string,
              execution_id data = Some text /\
              uuid_of_string text = Some (CostEvent.execution_id e))
         events /\
  (forall e1 e2 : CostEvent.t,
     In e1 events -> In e2 events ->
     CostEvent.execution_id e1 = CostEvent.execution_id e2).
Proof.
  unfold to_cost_events. rewrite collect_returns_iff.
  intros (conv & Hall & ->). cbn [app].
  assert (Hfields :
    Forall (fun e =>
              CostEvent.component e = "model" /\
              CostEvent.action e = "invoke" /\
              CostEvent.metadata e = None /\
              (CostEvent.total_cost e
                 =? CostEvent.unit_cost e * CostEvent.quantity e)%float = true /\
              exists text : string,
                execution_id data = Some text /\
                uuid_of_string text = Some (CostEvent.execution_id e)) conv).
  { induction Hall as [|inv e invs conv' He _ IH]; constructor; [|exact IH].
    destruct (convert_fields data inv e He) as (? & ? & ? & _ & ? & ?). auto. }
  split; [symmetry; eapply Forall2_length; eassumption|].
  split; [exact Hfields|].
  intros e1 e2 H1 H2.
  rewrite List.Forall_forall in Hfields.
  destruct (Hfields e1 H1) as (_ & _ & _ & _ & t1 & Ht1 & Hu1).
  destruct (Hfields e2 H2) as (_ & _ & _ & _ & t2 & Ht2 & Hu2).
  rewrite Ht1 in Ht2. injection Ht2 as <-. congruence.
Qed.

End WithUUID.

(** X14 on a transcript of execution "3" with two invocations, and on the
    same transcript when the second invocation records a wrong total. *)
Lemma to_cost_events_all_or_nothing_witness :
  (exists e1 e2 : CostEvent.t,
     to_cost_events digit_uuid
       (mkTranscript (Some "3")
          (Some [ sample_invocation "1" 10 0.03 1000 30;
                  sample_invocation "2" 11 0.03 1500 45 ]))
     = Returns [e1; e2]) /\
  to_cost_events digit_uuid
    (mkTranscript (Some "3")
       (Some [ sample_invocation "1" 10 0.03 1000 30;
               sample_invocation "2" 11 0.03 1500 44 ]))
  = Raises (EventError ValidationError).
Proof.
  split.
  - eexists _, _.
    apply (to_cost_events_all_or_nothing digit_uuid).
    repeat constructor.
  - destruct (to_cost_events_all_or_nothing digit_uuid
                (mkTranscript (Some "3")
                   (Some [ sample_invocation "1" 10 0.03 1000 30;
                           sample_invocation "2" 11 0.03 1500 44 ])))
      as (_ & Hfail & _).
    eapply (Hfail [sample_invocation "1" 10 0.03 1000 30]);
      [reflexivity|repeat constructor|reflexivity].
Defined.

(** X15 on the transcript of execution "3" with two invocations. *)
Lemma to_cost_events_output_witness :
  let e1 := CostEvent.mk 1%Z (mkDatetime 10 0) 3%Z "model" "invoke"
              0.03%float 1000%float 30%float "USD" "openai" "gpt-4:v1.0.0"
              "token" None in
  let e2 := CostEvent.mk 2%Z (mkDatetime 11 0) 3%Z "model" "invoke"
              0.03%float 1500%float 45%float "USD" "openai" "gpt-4:v1.0.0"
              "token" None in
  length [e1; e2] = 2 /\
  CostEvent.execution_id e1 = CostEvent.execution_id e2.
Proof.
  intros e1 e2.
  destruct (to_cost_events_output digit_uuid
              (mkTranscript (Some "3")
                 (Some [ sample_invocation "1" 10 0.03 1000 30;
                         sample_invocation "2" 11 0.03 1500 45 ]))
              [e1; e2] eq_refl) as (Hlen & _ & Hsame).
  split; [exact Hlen|].
  apply Hsame; cbn; auto.
Defined.

Section IntoTheLedger.
Context `{PyRuntime}.
Variable uuid_of_string : string -> option UUID.

(** X16: the adapter feeds the ledger one execution: when the events of a
    transcript are all appended to a fresh ledger, the ledger holds
    exactly these events, and filtering it by the execution id of the
    transcript returns all of them, in the order of the transcript. *)
Theorem transcript_fills_one_execution (data : transcript) (text : string)
    (id : UUID) (events : list CostEvent.t) :
  execution_id data = Some text ->
  uuid_of_string text = Some id ->
  to_cost_events uuid_of_string data = Returns events ->
  fst (CostLedger.add_events events CostLedger.new) = Ok tt ->
  CostLedger.get_events (snd (CostLedger.add_events events CostLedger.new))
    = events /\
  CostLedger.get_events_by_execution
    (snd (CostLedger.add_events events CostLedger.new)) id = events.
Proof.
  intros Htext Hid Hconv Hadd.
  destruct (CostLedger.add_events events CostLedger.new) as [r after_all] eqn:Erun.
  cbn [fst snd] in *. subst r.
  destruct (LedgerProps.add_events_ok events _ _ Erun LedgerProps.well_formed_new)
    as [Hev _].
  cbn [CostLedger._events CostLedger.new app] in Hev.
  unfold CostLedger.get_events, CostLedger.get_events_by_execution.
  rewrite Hev. clear Hev Erun. split; [reflexivity|].
  unfold to_cost_events in Hconv. apply collect_returns_iff in Hconv
    as (conv & Hall & ->). cbn [app].
  induction Hall as [|inv e invs conv' He _ IH]; [reflexivity|].
  cbn [List.filter].
  destruct (convert_fields uuid_of_string data inv e He)
    as (_ & _ & _ & _ & _ & t & Ht & Hu).
  rewrite Htext in Ht. injection Ht as <-. rewrite Hid in Hu. injection Hu as <-.
  rewrite Z.eqb_refl. now rewrite IH.
Qed.

End IntoTheLedger.

Lemma transcript_fills_one_execution_witness :
  let H := Spec.plain_runtime in
  let e1 := CostEvent.mk 1%Z (mkDatetime 10 0) 3%Z "model" "invoke"
              0.03%float 1000%float 30%float "USD" "openai" "gpt-4:v1.0.0"
              "token" None in
  let e2 := CostEvent.mk 2%Z (mkDatetime 11 0) 3%Z "model" "invoke"
              0.03%float 1500%float 45%float "USD" "openai" "gpt-4:v1.0.0"
              "token" None in
  CostLedger.get_events
    (snd (CostLedger.add_events [e1; e2] CostLedger.new)) = [e1; e2] /\
  CostLedger.get_events_by_execution
    (snd (CostLedger.add_events [e1; e2] CostLedger.new)) 3%Z = [e1; e2].
Proof.
  intros H e1 e2.
  apply (transcript_fills_one_execution (H := H) digit_uuid
           (mkTranscript (Some "3")
              (Some [ sample_invocation "1" 10 0.03 1000 30;
                      sample_invocation "2" 11 0.03 1500 45 ]))
           "3" 3%Z [e1; e2]); reflexivity.
Defined.

End AdapterProps.

(* --------------------------------------------------------------------- *)
(** ** The hashes of a ledger are all different *)
(* --------------------------------------------------------------------- *)

Module HashChain.
Import CostLedger Spec.
Section WithRuntime.
Context `{PyRuntime}.

Lemma serialize_take_longer (events : list CostEvent.t) (i j : nat) :
  i < j -> j <= length events ->
  String.length (serialize (take i events))
    < String.length (serialize (take j events)).
Proof.
  intros Hij Hj.
  replace (take j events) with (take i events ++ drop i (take j events)).
  - apply LedgerMore.serialize_app_longer.
    intros E. apply (f_equal length) in E.
    rewrite length_drop, length_take in E. cbn in E. lia.
  - rewrite <- (take_drop i (take j events)) at 2.
    rewrite take_take. now replace (i `min` j) with i by lia.
Qed.

(** X17: in every reachable ledger, the digest having no collision, the
    recorded hashes are pairwise different and none of them is the hash of
    the empty ledger: each append produced a hash that was never the
    ledger's hash before. *)
Theorem ledger_hashes_never_repeat (calls : list call) :
  collision_free ->
  NoDup (_hashes (run calls new)) /\
  ~ In (get_ledger_hash new) (_hashes (run calls new)).
Proof.
  intros Hcf.
  destruct (LedgerProps.run_well_formed calls new LedgerProps.well_formed_new)
    as [Hh _].
  rewrite Hh. unfold prefix_hashes. set (events := _events (run calls new)).
  split.
  - apply NoDup_fmap_2_strong; [|apply NoDup_seq].
    intros i j Hi Hj E. apply elem_of_seq in Hi, Hj.
    unfold hash_at in E. apply Hcf in E.
    destruct (Nat.lt_trichotomy i j) as [Hlt|[Heq|Hgt]]; [|exact Heq|].
    + pose proof (serialize_take_longer events (S i) (S j)) as Hl.
      rewrite E in Hl. lia.
    + pose proof (serialize_take_longer events (S j) (S i)) as Hl.
      rewrite E in Hl. lia.
  - intros Hin. apply in_map_iff in Hin as (i & E & Hi). apply in_seq in Hi.
    unfold hash_at, get_ledger_hash in E. cbn [_hashes new last] in E.
    apply Hcf in E.
    pose proof (serialize_take_longer events 0 (S i) ltac:(lia) ltac:(lia)) as Hl.
    rewrite take_0, E in Hl. change (serialize []) with "[]" in Hl. lia.
Qed.

End WithRuntime.

Lemma ledger_hashes_never_repeat_witness :
  let H := plain_runtime in
  NoDup (_hashes (run [ AddEvent (sample_event 1 10 "gpt-4:v1.0.0" 1 1 1);
                        AddEvent (sample_event 2 11 "gpt-4:v1.0.0" 1 1 1) ] new)) /\
  ~ In (get_ledger_hash new)
       (_hashes (run [ AddEvent (sample_event 1 10 "gpt-4:v1.0.0" 1 1 1);
                       AddEvent (sample_event 2 11 "gpt-4:v1.0.0" 1 1 1) ] new)).
Proof.
  intros H. apply (ledger_hashes_never_repeat (H := H)).
  intros a b E. exact E.
Defined.

End HashChain.
